(** * Vertica SQLGlot dialect: example runner and smoke tests

    A shallow embedding of the three scripts of the repository
    ([verify.py], [test_simple.py], [examples/run_all_examples.py]) and the
    properties their specification states about them.

    The scripts are glue over two things that are not theirs: the Python
    runtime (console, clock, subprocesses, exceptions, exit status) and
    the SQL library with its Vertica dialect.  The runtime is modelled
    below as an exception-and-trace monad; the library and the host
    operating system are records of functions the scripts are
    parameterised by. *)

From Stdlib Require Import String Ascii List ZArith Bool Arith Lia.
From Stdlib Require Import Floats.PrimFloat Numbers.Cyclic.Int63.Uint63.
From Stdlib Require Import Numbers.DecimalString.
Import ListNotations.

Local Open Scope string_scope.
Local Open Scope list_scope.

(* ================================================================= *)
(** ** Python runtime *)

Module Py.

(** Classes of the [Exception] hierarchy the scripts can meet. *)
Inductive exc_class : Type :=
| TimeoutExpired      (* subprocess.TimeoutExpired *)
| AssertionError
| IndexError
| ImportError
| OSError
| ValueError
| TokenError          (* sqlglot.errors.TokenError *)
| ParseError          (* sqlglot.errors.ParseError *)
| UnsupportedError.   (* sqlglot.errors.UnsupportedError *)

Definition class_name (c : exc_class) : string :=
  match c with
  | TimeoutExpired => "TimeoutExpired"
  | AssertionError => "AssertionError"
  | IndexError => "IndexError"
  | ImportError => "ImportError"
  | OSError => "OSError"
  | ValueError => "ValueError"
  | TokenError => "TokenError"
  | ParseError => "ParseError"
  | UnsupportedError => "UnsupportedError"
  end.

Definition exc_class_eqb (a b : exc_class) : bool :=
  match a, b with
  | TimeoutExpired, TimeoutExpired
  | AssertionError, AssertionError
  | IndexError, IndexError
  | ImportError, ImportError
  | OSError, OSError
  | ValueError, ValueError
  | TokenError, TokenError
  | ParseError, ParseError
  | UnsupportedError, UnsupportedError => true
  | _, _ => false
  end.

(** An instance of (a subclass of) [Exception]: its class and [str(e)]. *)
Record Exception : Type := mkException {
  exc_type : exc_class;
  exc_str : string
}.

(** [isinstance(e, cls)] for the leaf classes above. *)
Definition isinstance (e : Exception) (cls : exc_class) : bool :=
  exc_class_eqb (exc_type e) cls.

(** What a [raise] carries.  [sys.exit(n)] raises [SystemExit], which
    derives from [BaseException] only: [except Exception] lets it
    through. *)
Inductive raised : Type :=
| SystemExit (code : Z)
| Exc (e : Exception).

(** One replacement field or literal run of an f-string. *)
Inductive frag : Type :=
| Str (s : string)                 (* literal text, or [{s}] *)
| Int (n : Z)                      (* [{n}] *)
| Fixed (digits : nat) (x : float) (* [{x:.2f}], [{x:.3f}] *)
| Padded (width : nat) (s : string). (* [{s:<25}] *)

(** The argument of one [print] call. *)
Definition line : Type := list frag.

Inductive lib_call : Type :=
| CallImport (module symbol : string)
| CallParse (sql : string)                     (* Vertica.parse(sql) *)
| CallGenerate                                 (* Vertica().generate(e) *)
| CallParseOne (sql : string)                  (* parse_one(sql, read=Vertica) *)
| CallSql                                      (* ast.sql(dialect=Vertica) *)
| CallTranspile (sql read write : string)      (* transpile(sql, read=, write=) *)
| CallFindAll (node : string).                 (* ast.find_all(exp.X) *)

(** What a run leaves behind, in order. *)
Inductive event : Type :=
| Printed (l : line)                                      (* print(...) *)
| TracebackPrinted (e : Exception)                        (* traceback.print_exc() *)
| ClockRead (t : float)                                   (* time.time() *)
| Called (c : lib_call)
| Spawned (argv : list string) (cwd : string) (timeout : Z). (* subprocess.run *)

Record world : Type := mkWorld {
  trace : list event;   (* oldest first *)
  ticks : nat           (* number of clock readings so far *)
}.

Definition boot : world := mkWorld [] 0.

Inductive outcome (A : Type) : Type :=
| Ret (a : A)
| Raise (r : raised).
Arguments Ret {A} a.
Arguments Raise {A} r.

Definition M (A : Type) : Type := world -> outcome A * world.

Definition ret {A} (a : A) : M A := fun w => (Ret a, w).

Definition bind {A B} (m : M A) (k : A -> M B) : M B :=
  fun w =>
    match m w with
    | (Ret a, w') => k a w'
    | (Raise r, w') => (Raise r, w')
    end.

Definition raise {A} (r : raised) : M A := fun w => (Raise r, w).

Definition emit (e : event) : M unit :=
  fun w => (Ret tt, mkWorld (trace w ++ [e]) (ticks w)).

Definition print (l : line) : M unit := emit (Printed l).

Definition traceback_print_exc (e : Exception) : M unit :=
  emit (TracebackPrinted e).

(** [sys.exit(code)] *)
Definition sys_exit {A} (code : Z) : M A := raise (SystemExit code).

(** A call into foreign code: it is recorded, then returns or raises. *)
Definition call {A} (c : lib_call) (r : Exception + A) : M A :=
  bind (emit (Called c))
       (fun _ => match r with
                 | inl e => raise (Exc e)
                 | inr a => ret a
                 end).

(** [assert b] *)
Definition assert (b : bool) : M unit :=
  if b then ret tt else raise (Exc (mkException AssertionError "")).

(** [xs[0]] *)
Definition first_item {A} (xs : list A) : M A :=
  match xs with
  | x :: _ => ret x
  | [] => raise (Exc (mkException IndexError "list index out of range"))
  end.

(** One [except] clause: the class test and the handler. *)
Definition clause (A : Type) : Type := (Exception -> bool) * (Exception -> M A).

Fixpoint dispatch {A} (clauses : list (clause A)) (e : Exception) : M A :=
  match clauses with
  | [] => raise (Exc e)
  | (matches, handler) :: rest =>
      if matches e then handler e else dispatch rest e
  end.

(** [try: body / except C1: ... / except C2 as e: ...]: the first
    clause whose class matches runs; an exception that derives from
    [BaseException] only reaches no clause of the scripts. *)
Definition try_except {A} (body : M A) (clauses : list (clause A)) : M A :=
  fun w =>
    match body w with
    | (Raise (Exc e), w') => dispatch clauses e w'
    | r => r
    end.

Definition except (cls : exc_class) {A} (h : Exception -> M A) : clause A :=
  (fun e => isinstance e cls, h).

(** [except Exception as e:] *)
Definition except_Exception {A} (h : Exception -> M A) : clause A :=
  (fun _ => true, h).

(** [for x in xs: body] *)
Fixpoint for_each {A} (xs : list A) (body : A -> M unit) : M unit :=
  match xs with
  | [] => ret tt
  | x :: rest => bind (body x) (fun _ => for_each rest body)
  end.

(** A [for] loop whose body updates local variables [s]. *)
Fixpoint for_fold {A S} (xs : list A) (s : S) (body : A -> S -> M S) : M S :=
  match xs with
  | [] => ret s
  | x :: rest => bind (body x s) (fun s' => for_fold rest s' body)
  end.

(** The status the interpreter exits with: 0 when the module body runs
    to its end, the code of an uncaught [SystemExit], 1 after the
    traceback of any other uncaught exception. *)
Definition exit_status {A} (o : outcome A) : Z :=
  match o with
  | Ret _ => 0
  | Raise (SystemExit code) => code
  | Raise (Exc _) => 1
  end.

(** What [print] wrote, in order. *)
Definition console (t : list event) : list line :=
  flat_map (fun e => match e with Printed l => [l] | _ => [] end) t.

(** [s * n] on strings *)
Fixpoint str_mul (s : string) (n : nat) : string :=
  match n with
  | O => ""
  | S n' => s ++ str_mul s n'
  end.

(** [s[:n]] *)
Definition prefix_slice (n : nat) (s : string) : string := substring 0 n s.

Definition upper_ascii (c : ascii) : ascii :=
  let n := nat_of_ascii c in
  if andb (Nat.leb 97 n) (Nat.leb n 122) then ascii_of_nat (n - 32) else c.

(** [s.upper()] *)
Fixpoint upper (s : string) : string :=
  match s with
  | EmptyString => EmptyString
  | String c s' => String (upper_ascii c) (upper s')
  end.

(** [range(n)] *)
Definition range (n : Z) : list Z := map Z.of_nat (seq 0 (Z.to_nat n)).

(** The float of a small non-negative [int], as [/] and [*] convert
    their integer operand. *)
Definition float_of_int (n : Z) : float := PrimFloat.of_uint63 (Uint63.of_Z n).

(** [sum(xs)] *)
Definition sum (xs : list Z) : Z := fold_left Z.add xs 0%Z.

(** [len(xs)] *)
Definition len {A} (xs : list A) : Z := Z.of_nat (List.length xs).

(** [needle in haystack] on strings *)
Fixpoint contains (needle haystack : string) : bool :=
  if String.prefix needle haystack then true
  else match haystack with
       | EmptyString => false
       | String _ rest => contains needle rest
       end.

End Py.

Import Py.

Declare Scope py_scope.
Delimit Scope py_scope with py.
Notation "x <- m ;; k" := (bind m (fun x => k))
  (at level 61, m at next level, right associativity) : py_scope.
Notation "m ;; k" := (bind m (fun _ => k))
  (at level 61, right associativity) : py_scope.
Notation "' pat <- m ;; k" := (bind m (fun x => match x with pat => k end))
  (at level 61, pat pattern, m at next level, right associativity) : py_scope.
Local Open Scope py_scope.

(* ================================================================= *)
(** ** What the scripts are parameterised by *)

(** [subprocess.CompletedProcess] with [capture_output=True, text=True]. *)
Record CompletedProcess : Type := mkCompleted {
  returncode : Z;
  stdout : string;
  stderr : string
}.

(** The host: wall clock, interpreter path, script directory, and what
    [subprocess.run(argv, cwd=, capture_output=True, text=True, timeout=)]
    does for a command line. *)
Record Host : Type := mkHost {
  clock : nat -> float;     (* the n-th reading of time.time() *)
  sys_executable : string;
  script_dir : string;      (* os.path.dirname(__file__) *)
  subprocess_run : list string -> string -> Z -> Exception + CompletedProcess
}.

(** The SQL library and its Vertica dialect, as far as the scripts call
    them.  A call returns or raises an instance of [Exception]. *)
Record Library : Type := mkLibrary {
  ast : Type;
  import_sqlglot : option Exception;     (* from sqlglot import ... *)
  import_vertica : option Exception;     (* from sqlglot_vertica.vertica import Vertica *)
  Vertica_parse : string -> Exception + list ast;
  Vertica_generate : ast -> Exception + string;
  parse_one : string -> Exception + ast;
  ast_sql : ast -> Exception + string;
  transpile : string -> string -> string -> Exception + list string;
  find_all : ast -> string -> Exception + list ast
}.

Definition import (module symbol : string) (r : option Exception) : M unit :=
  call (CallImport module symbol)
       (match r with Some e => inl e | None => inr tt end).

(** [subprocess.run(argv, cwd=cwd, capture_output=True, text=True,
    timeout=timeout)] *)
Definition run_subprocess (h : Host) (argv : list string) (cwd : string)
    (timeout : Z) : M CompletedProcess :=
  emit (Spawned argv cwd timeout) ;;
  match subprocess_run h argv cwd timeout with
  | inl e => raise (Exc e)
  | inr r => ret r
  end.

(** [time.time()] *)
Definition time_time (h : Host) : M float :=
  fun w =>
    let t := clock h (ticks w) in
    (Ret t, mkWorld (trace w ++ [ClockRead t]) (S (ticks w))).


(* ================================================================= *)
(** ** examples/run_all_examples.py *)

(* ----------------------------------------------------------------- *)
(** *** String constants of run_all_examples.py *)

(** The line feed of ["\n"]. *)
Definition nl : string := String (ascii_of_nat 10) EmptyString.

(** The triple-quoted query of lines 68-78. *)
Definition complex_query_sql : string :=
"
        WITH dept_stats AS (
            SELECT dept_id, AVG(salary) as avg_salary
            FROM employees
            GROUP BY dept_id
        )
        SELECT e.name, e.salary, ds.avg_salary
        FROM employees e
        JOIN dept_stats ds ON e.dept_id = ds.dept_id
        WHERE e.salary > ds.avg_salary
        ".

(** [test_sql], the triple-quoted query of lines 160-177. *)
Definition test_sql : string :=
"
    WITH monthly_sales AS (
        SELECT 
            customer_id,
            DATE_TRUNC('month', order_date) as month,
            SUM(amount) as total
        FROM orders
        WHERE order_date >= DATEADD('year', -1, CURRENT_DATE)
        GROUP BY customer_id, DATE_TRUNC('month', order_date)
    )
    SELECT 
        customer_id,
        month,
        total,
        LAG(total) OVER (PARTITION BY customer_id ORDER BY month) as prev_total
    FROM monthly_sales
    ORDER BY customer_id, month
    ".

(** [test_cases] of [quick_dialect_validation], lines 54-82. *)
Definition test_cases : list (string * string) :=
  [ ("Basic SELECT", "SELECT name, salary FROM employees WHERE active = true");
    ("Date functions", "SELECT DATEADD('day', 7, hire_date), DATEDIFF('month', start_date, end_date) FROM projects");
    ("String functions", "SELECT MD5(email), SHA1(password), ILIKE(name, 'John%') FROM users");
    ("Window functions", "SELECT emp_id, ROW_NUMBER() OVER (PARTITION BY dept_id ORDER BY salary DESC) FROM employees");
    ("Complex query", complex_query_sql);
    ("DDL", "CREATE TABLE test (id INTEGER PRIMARY KEY, data BYTEA, created_at TIMESTAMPTZ)") ].

Definition vertica_sql : string :=
  "SELECT DATEDIFF('day', start_date, end_date) as duration FROM projects".

Definition targets : list string := ["postgres"; "mysql"; "sqlite"].

(** [unsupported_cases] of [demonstrate_key_features], lines 122-126. *)
Definition unsupported_cases : list (string * string) :=
  [ ("Dollar-quoted strings", "SELECT $$invalid$$ FROM test");
    ("LATERAL joins", "SELECT * FROM a LEFT JOIN LATERAL (SELECT * FROM b) x ON true");
    ("COPY FROM LOCAL", "COPY table1 FROM LOCAL '/tmp/data.csv'") ].

Definition vertica_functions : list string :=
  [ "SELECT APPROXIMATE_COUNT_DISTINCT(user_id) FROM sessions";
    "SELECT PERCENTILE_CONT(0.5) WITHIN GROUP (ORDER BY salary) FROM employees";
    "SELECT TO_CHAR(created_at, 'YYYY-MM-DD') FROM events";
    "SELECT REGEXP_REPLACE(phone, '[^0-9]', '') FROM contacts" ].

Definition iterations : Z := 100.

(** [example_scripts] of [main], lines 225-230. *)
Definition example_scripts : list string :=
  [ "basic_usage.py";
    "advanced_transformations.py";
    "data_migration.py";
    "performance_analysis.py" ].

Section RunAllExamples.

Variable host : Host.
Variable lib : Library.

Definition timeout_message : string := "Script timed out after 30 seconds".

(** [run_example_script], lines 22-46. *)
Definition run_example_script (script_name : string)
  : M (bool * string * float) :=
  start_time <- time_time host ;;
  try_except
    (result <- run_subprocess host [sys_executable host; script_name]
                              (script_dir host) 30 ;;
     now <- time_time host ;;
     let execution_time := PrimFloat.sub now start_time in
     let success := Z.eqb (returncode result) 0 in
     let output := if success then stdout result else stderr result in
     ret (success, output, execution_time))
    [ except TimeoutExpired (fun _ =>
        now <- time_time host ;;
        let execution_time := PrimFloat.sub now start_time in
        ret (false, timeout_message, execution_time));
      except_Exception (fun e =>
        now <- time_time host ;;
        let execution_time := PrimFloat.sub now start_time in
        ret (false, ("Error running script: " ++ exc_str e)%string, execution_time)) ].

(** The body of the [for] loop of [quick_dialect_validation], lines
    88-95, on the local variables [(passed, failed)]. *)
Definition validate_case (tc : string * string) (counters : Z * Z)
  : M (Z * Z) :=
  let '(test_name, sql) := tc in
  let '(passed, failed) := counters in
  try_except
    (tree <- call (CallParseOne sql) (parse_one lib sql) ;;
     generated <- call CallSql (ast_sql lib tree) ;;
     print [Str "✅ "; Str test_name; Str ": PASSED"] ;;
     ret ((passed + 1)%Z, failed))
    [ except_Exception (fun e =>
        print [Str "❌ "; Str test_name; Str ": FAILED - "; Str (exc_str e)] ;;
        ret (passed, (failed + 1)%Z)) ].

(** The loop of lines 84-95: the counters after it. *)
Definition validation_loop (cases : list (string * string)) : M (Z * Z) :=
  for_fold cases (0%Z, 0%Z) validate_case.

(** [quick_dialect_validation], lines 49-98. *)
Definition quick_dialect_validation : M unit :=
  print [Str "🔍 QUICK DIALECT VALIDATION"] ;;
  print [Str (str_mul "=" 60)] ;;
  '(passed, failed) <- validation_loop test_cases ;;
  print [Str nl; Str "Validation Results: "; Int passed; Str " passed, ";
         Int failed; Str " failed"] ;;
  print [].

(** The body of the loop over [unsupported_cases], lines 129-133. *)
Definition reject_case (uc : string * string) : M unit :=
  let '(feature_name, sql) := uc in
  try_except
    (call (CallParseOne sql) (parse_one lib sql) ;;
     print [Str "   ❌ "; Str feature_name; Str ": Should have failed but didn't"])
    [ except_Exception (fun e =>
        print [Str "   ✅ "; Str feature_name; Str ": Correctly rejected - ";
               Str (class_name (exc_type e))]) ].

(** [demonstrate_key_features], lines 101-151.  [read=Vertica] passes
    the dialect class; the library record takes it by its registered
    name. *)
Definition demonstrate_key_features : M unit :=
  print [Str "🌟 KEY FEATURES DEMONSTRATION"] ;;
  print [Str (str_mul "=" 60)] ;;
  print [Str "1. Cross-Dialect Transpilation:"] ;;
  for_each targets (fun target =>
    try_except
      (out <- call (CallTranspile vertica_sql "vertica" target)
                   (transpile lib vertica_sql "vertica" target) ;;
       converted <- first_item out ;;
       print [Str "   "; Str (upper target); Str ": "; Str converted])
      [ except_Exception (fun e =>
          print [Str "   "; Str (upper target); Str ": Error - "; Str (exc_str e)]) ]) ;;
  print [] ;;
  print [Str "2. Error Handling for Unsupported Features:"] ;;
  for_each unsupported_cases reject_case ;;
  print [] ;;
  print [Str "3. Vertica-Specific Functions:"] ;;
  for_each vertica_functions (fun sql =>
    try_except
      (tree <- call (CallParseOne sql) (parse_one lib sql) ;;
       print [Str "   ✅ "; Str sql])
      [ except_Exception (fun e =>
          print [Str "   ❌ "; Str sql; Str " - Error: "; Str (exc_str e)]) ]) ;;
  print [].

(** The timed loop of lines 181-187: the elapsed time and the
    per-iteration average in milliseconds. *)
Definition benchmark : M (float * float) :=
  start_time <- time_time host ;;
  for_each (range iterations) (fun _ =>
    call (CallParseOne test_sql) (parse_one lib test_sql) ;; ret tt) ;;
  now <- time_time host ;;
  let parse_time := PrimFloat.sub now start_time in
  let avg_parse_time :=
    PrimFloat.mul (PrimFloat.div parse_time (float_of_int iterations))
                  (float_of_int 1000) in
  ret (parse_time, avg_parse_time).

(** [len(list(ast.find_all(exp.X)))] *)
Definition count_nodes (tree : ast lib) (node : string) : M Z :=
  found <- call (CallFindAll node) (find_all lib tree node) ;;
  ret (len found).

(** [show_performance_summary], lines 154-203. *)
Definition show_performance_summary : M unit :=
  print [Str "⚡ PERFORMANCE SUMMARY"] ;;
  print [Str (str_mul "=" 60)] ;;
  '(parse_time, avg_parse_time) <- benchmark ;;
  print [Str "Parse Performance:"] ;;
  print [Str "  Complex query parsing: "; Fixed 2 avg_parse_time;
         Str "ms average ("; Int iterations; Str " iterations)"] ;;
  print [Str "  Total time: "; Fixed 3 parse_time; Str "s"] ;;
  tree <- call (CallParseOne test_sql) (parse_one lib test_sql) ;;
  tables <- count_nodes tree "Table" ;;
  functions <- count_nodes tree "Func" ;;
  windows <- count_nodes tree "Window" ;;
  print [Str nl; Str "AST Complexity:"] ;;
  print [Str "  Tables: "; Int tables] ;;
  print [Str "  Functions: "; Int functions] ;;
  print [Str "  Window functions: "; Int windows] ;;
  print [].

(** One entry of [results]: [(script, success, exec_time)]. *)
Definition result_row : Type := string * bool * float.

Definition row_success (r : result_row) : bool := snd (fst r).

(** The body of the loop over [example_scripts], lines 236-245, on the
    local variable [results]. *)
Definition run_one (script : string) (results : list result_row)
  : M (list result_row) :=
  print [Str "Running "; Str script; Str "..."] ;;
  '(success, output, exec_time) <- run_example_script script ;;
  let results := results ++ [(script, success, exec_time)] in
  (if success : bool
   then print [Str "  ✅ Completed successfully in "; Fixed 2 exec_time; Str "s"]
   else
     print [Str "  ❌ Failed after "; Fixed 2 exec_time; Str "s"] ;;
     print [Str "  Error: "; Str (prefix_slice 200 output); Str "..."]) ;;
  print [] ;;
  ret results.

(** [sum(1 for _, success, _ in results if success)] *)
Definition count_successful (results : list result_row) : Z :=
  sum (map (fun _ => 1%Z) (filter row_success results)).

(** Lines 249-275 of [main]: the summary and the returned status. *)
Definition summarise (results : list result_row) (total_time : float) : M Z :=
  print [Str "📊 EXECUTION SUMMARY"] ;;
  print [Str (str_mul "=" 60)] ;;
  let successful := count_successful results in
  let total_scripts := len results in
  print [Str "Scripts executed: "; Int total_scripts] ;;
  print [Str "Successful: "; Int successful] ;;
  print [Str "Failed: "; Int (total_scripts - successful)] ;;
  print [Str "Total execution time: "; Fixed 2 total_time; Str "s"] ;;
  print [] ;;
  print [Str "Individual script results:"] ;;
  for_each results (fun '(script, success, exec_time) =>
    let status := if success : bool then "✅ PASSED" else "❌ FAILED" in
    print [Str "  "; Padded 25 script; Str " "; Padded 10 status; Str " (";
           Fixed 2 exec_time; Str "s)"]) ;;
  print [] ;;
  if Z.eqb successful total_scripts
  then
    print [Str "🎉 ALL EXAMPLES COMPLETED SUCCESSFULLY!"] ;;
    print [Str "The Vertica SQLGlot dialect is working perfectly!"] ;;
    ret 0%Z
  else
    print [Str "⚠️  Some examples failed. Check the output above for details."] ;;
    ret 1%Z.

(** Lines 221-275 of [main]: running the example scripts. *)
Definition run_scripts : M Z :=
  print [Str "📋 RUNNING ALL EXAMPLE SCRIPTS"] ;;
  print [Str (str_mul "=" 60)] ;;
  total_start <- time_time host ;;
  results <- for_fold example_scripts [] run_one ;;
  now <- time_time host ;;
  let total_time := PrimFloat.sub now total_start in
  summarise results total_time.

(** [main], lines 206-275. *)
Definition main : M Z :=
  print [Str "🚀 VERTICA SQLGLOT DIALECT - COMPREHENSIVE DEMONSTRATION"] ;;
  print [Str (str_mul "=" 80)] ;;
  print [] ;;
  quick_dialect_validation ;;
  demonstrate_key_features ;;
  show_performance_summary ;;
  run_scripts.

(** The module run as a script: the imports of lines 18-19, then
    [sys.exit(main())]. *)
Definition run_all_examples_py : M unit :=
  import "sqlglot" "parse_one, transpile, exp" (import_sqlglot lib) ;;
  import "sqlglot_vertica.vertica" "Vertica" (import_vertica lib) ;;
  status <- main ;;
  sys_exit status.

End RunAllExamples.

(* ================================================================= *)
(** ** test_simple.py *)

Section TestSimple.

Variable lib : Library.

(** [generated = Vertica().generate(Vertica.parse(sql)[0])], the three
    lines each check of [test_basic_functionality] opens with. *)
Definition parse_and_generate (sql : string) : M string :=
  parsed <- call (CallParse sql) (Vertica_parse lib sql) ;;
  tree <- first_item parsed ;;
  call CallGenerate (Vertica_generate lib tree).

(** The [try] suite of [test_basic_functionality], lines 10-60. *)
Definition test_basic_body : M bool :=
  import "sqlglot_vertica.vertica" "Vertica" (import_vertica lib) ;;
  import "sqlglot" "transpile" (import_sqlglot lib) ;;
  print [Str "✓ Successfully imported Vertica dialect"] ;;
  (* Test basic parsing *)
  let sql := "SELECT * FROM table1" in
  parsed <- call (CallParse sql) (Vertica_parse lib sql) ;;
  assert (Z.ltb 0 (len parsed)) ;;
  print [Str "✓ Basic parsing works"] ;;
  (* Test basic generation *)
  tree <- first_item parsed ;;
  generated <- call CallGenerate (Vertica_generate lib tree) ;;
  assert (String.eqb generated sql) ;;
  print [Str "✓ Basic generation works"] ;;
  (* Test date functions *)
  generated <- parse_and_generate "SELECT DATEADD(DAY, 1, CURRENT_DATE)" ;;
  assert (contains "DATEADD" generated) ;;
  print [Str "✓ Date functions work"] ;;
  (* Test string functions *)
  generated <- parse_and_generate "SELECT 'hello' ILIKE 'HE%'" ;;
  assert (contains "ILIKE" generated) ;;
  print [Str "✓ String functions work"] ;;
  (* Test arrays *)
  generated <- parse_and_generate "SELECT ARRAY[1, 2, 3]" ;;
  assert (contains "ARRAY" generated) ;;
  print [Str "✓ Array functions work"] ;;
  (* Test data types *)
  generated <- parse_and_generate "CREATE TABLE test (id INTEGER, ts TIMESTAMPTZ)" ;;
  assert (contains "TIMESTAMPTZ" generated) ;;
  print [Str "✓ Data types work"] ;;
  (* Test transpilation *)
  result <- call (CallTranspile "SELECT NOW()" "postgres" "vertica")
                 (transpile lib "SELECT NOW()" "postgres" "vertica") ;;
  assert (Z.ltb 0 (len result)) ;;
  print [Str "✓ Transpilation works"] ;;
  print [Str nl; Str "🎉 All basic tests passed! The Vertica dialect is working correctly."] ;;
  ret true.

(** [test_basic_functionality], lines 9-67. *)
Definition test_basic_functionality : M bool :=
  try_except test_basic_body
    [ except_Exception (fun e =>
        print [Str "❌ Test failed with error: "; Str (exc_str e)] ;;
        traceback_print_exc e ;;
        ret false) ].

(** The module run as a script, lines 69-80. *)
Definition test_simple_py : M unit :=
  print [Str "Testing Vertica SQLGlot Dialect Implementation"] ;;
  print [Str (str_mul "=" 50)] ;;
  success <- test_basic_functionality ;;
  if success : bool
  then
    print [Str nl; Str "✅ Implementation is working correctly!"] ;;
    sys_exit 0
  else
    print [Str nl; Str "❌ Implementation has issues that need to be fixed."] ;;
    sys_exit 1.

End TestSimple.

(* ================================================================= *)
(** ** verify.py *)

Section Verify.

Variable lib : Library.

(** The [try] suite, lines 4-14. *)
Definition verify_body : M unit :=
  import "sqlglot_vertica.vertica" "Vertica" (import_vertica lib) ;;
  print [Str "SUCCESS: Vertica dialect imported successfully"] ;;
  (* Test basic parsing *)
  let sql := "SELECT 1" in
  result <- call (CallParse sql) (Vertica_parse lib sql) ;;
  print [Str "SUCCESS: Basic parsing works"] ;;
  (* Test basic generation *)
  tree <- first_item result ;;
  generated <- call CallGenerate (Vertica_generate lib tree) ;;
  print [Str "SUCCESS: Generated SQL: "; Str generated].

(** The module run as a script, lines 3-19: nothing follows the
    [try] statement. *)
Definition verify_py : M unit :=
  try_except verify_body
    [ except_Exception (fun e =>
        print [Str "ERROR: "; Str (exc_str e)] ;;
        traceback_print_exc e) ].

End Verify.

(* ================================================================= *)
(** ** The SQL pipeline behind the library record

    The dialect, tokenizer, parser and generator the scripts import are
    not among the sources of the scripts.  [SqlModel] follows the
    design the specification gives for them: text, tokenizer, token
    stream, parser with dialect overrides, syntax tree, generator with
    dialect overrides, text; and a registry from dialect names to
    rules. *)

Module SqlModel.

Definition res (A : Type) : Type := (Exception + A)%type.

Definition and_then {A B} (r : res A) (k : A -> res B) : res B :=
  match r with
  | inl e => inl e
  | inr a => k a
  end.

(** Modelled from the spec: the typed lexical tokens of the missing
    tokenizer (identifiers, keywords, operators, literals). *)
Inductive token_type : Type :=
| TIdentifier
| TKeyword
| TOperator
| TNumber
| TString.

(** Modelled from the spec: a token of the missing tokenizer, with the
    source position kept for error reporting. *)
Record token : Type := mkToken {
  tok_type : token_type;
  tok_text : string;
  tok_pos : nat
}.

(** Modelled from the spec: the missing dialect, a combination of
    tokenizer rules, parser overrides and generator overrides. *)
Record dialect : Type := mkDialect {
  reserved : list string;            (* tokenizer: the reserved words *)
  type_names : list string;          (* parser: data types of column definitions *)
  renames : list (string * string)   (* generator: how a function name is rendered *)
}.

Definition show_nat (n : nat) : string :=
  NilEmpty.string_of_uint (Nat.to_uint n).

Definition is_space (c : ascii) : bool :=
  let n := nat_of_ascii c in
  (Nat.eqb n 32 || Nat.eqb n 9 || Nat.eqb n 10 || Nat.eqb n 13)%bool.

Definition is_digit (c : ascii) : bool :=
  let n := nat_of_ascii c in (Nat.leb 48 n && Nat.leb n 57)%bool.

Definition is_letter (c : ascii) : bool :=
  let n := nat_of_ascii c in
  ((Nat.leb 65 n && Nat.leb n 90) || (Nat.leb 97 n && Nat.leb n 122)
   || Nat.eqb n 95)%bool.

Definition operator_chars : string := "*,()[]=<>.+-/;".

Definition is_operator (c : ascii) : bool :=
  existsb (Ascii.eqb c) (list_ascii_of_string operator_chars).

Definition quote : ascii := "'"%char.

Definition snoc (s : string) (c : ascii) : string := s ++ String c "".

(** Modelled from the spec: the states of the missing tokenizer while
    it reads one token. *)
Inductive scan : Type :=
| Idle
| InWord (start : nat) (text : string)
| InNumber (start : nat) (text : string)
| InQuote (start : nat) (text : string).

Definition word_token (d : dialect) (start : nat) (text : string) : token :=
  if existsb (String.eqb (upper text)) (reserved d)
  then mkToken TKeyword (upper text) start
  else mkToken TIdentifier text start.

Definition flush (d : dialect) (st : scan) (out : list token) : list token :=
  match st with
  | Idle | InQuote _ _ => out
  | InWord start text => out ++ [word_token d start text]
  | InNumber start text => out ++ [mkToken TNumber text start]
  end.

Definition token_error {A} (msg : string) (pos : nat) : res A :=
  inl (mkException TokenError (msg ++ " at position " ++ show_nat pos)).

(** The first character of a token. *)
Definition open_token (c : ascii) (pos : nat) (out : list token)
  : res (scan * list token) :=
  if is_space c then inr (Idle, out)
  else if is_letter c then inr (InWord pos (String c ""), out)
  else if is_digit c then inr (InNumber pos (String c ""), out)
  else if Ascii.eqb c quote then inr (InQuote pos "", out)
  else if is_operator c
       then inr (Idle, out ++ [mkToken TOperator (String c "") pos])
       else token_error ("Unexpected character " ++ String c "") pos.

(** Modelled from the spec: one step of the missing tokenizer, the
    state and the tokens after the character [c] at [pos]. *)
Definition scan_step (d : dialect) (c : ascii) (pos : nat) (st : scan)
    (out : list token) : res (scan * list token) :=
  match st with
  | InQuote start text =>
      if Ascii.eqb c quote
      then inr (Idle, out ++ [mkToken TString text start])
      else inr (InQuote start (snoc text c), out)
  | InWord start text =>
      if (is_letter c || is_digit c)%bool
      then inr (InWord start (snoc text c), out)
      else open_token c pos (flush d st out)
  | InNumber start text =>
      if (is_digit c || Ascii.eqb c "."%char)%bool
      then inr (InNumber start (snoc text c), out)
      else open_token c pos (flush d st out)
  | Idle => open_token c pos out
  end.

(** Modelled from the spec: the scanning loop of the missing
    tokenizer, one character at a time. *)
Fixpoint scan_chars (d : dialect) (s : string) (pos : nat) (st : scan)
    (out : list token) {struct s} : res (list token) :=
  match s with
  | EmptyString =>
      match st with
      | InQuote start _ => token_error "Missing closing quote for string opened" start
      | _ => inr (flush d st out)
      end
  | String c rest =>
      match scan_step d c pos st out with
      | inl e => inl e
      | inr (st', out') => scan_chars d rest (S pos) st' out'
      end
  end.

(** Modelled from the spec: the missing tokenizer, from raw SQL text to
    the token stream. *)
Definition tokenize (d : dialect) (sql : string) : res (list token) :=
  scan_chars d sql 0 Idle [].

Local Set Warnings "-register-all".

(** Modelled from the spec: the typed nodes of the missing syntax
    tree, expressions first. *)
Inductive expr : Type :=
| Star
| Column (qualifier : option string) (name : string)
| Number (text : string)
| Text (text : string)
| Func (name : string) (args : list expr)
| Binary (op : string) (lhs rhs : expr)
| ArrayLit (items : list expr)
| Paren (inner : expr).

Record table_ref : Type := mkTable {
  table_name : string;
  table_alias : option string
}.

Record join : Type := mkJoin {
  join_kind : string;
  join_table : table_ref;
  join_on : expr
}.

Record column_def : Type := mkColumn {
  col_name : string;
  col_type : string;
  col_primary_key : bool
}.

(** Modelled from the spec: the statement nodes of the missing syntax
    tree. *)
Inductive statement : Type :=
| Select (items : list (expr * option string)) (from : option table_ref)
         (joins : list join) (where_ : option expr)
| CreateTable (name : string) (columns : list column_def).

Definition parse_error {A} (msg : string) (toks : list token) : res A :=
  inl (mkException ParseError
         (msg ++ match toks with
                 | t :: _ => " at position " ++ show_nat (tok_pos t)
                 | [] => " at end of input"
                 end)).

Definition is_tok (ty : token_type) (text : string) (t : token) : bool :=
  (match tok_type t, ty with
   | TIdentifier, TIdentifier | TKeyword, TKeyword | TOperator, TOperator
   | TNumber, TNumber | TString, TString => true
   | _, _ => false
   end && String.eqb (tok_text t) text)%bool.

Definition is_op : string -> token -> bool := is_tok TOperator.
Definition is_kw : string -> token -> bool := is_tok TKeyword.

(** The binding strength of a binary operator token. *)
Definition binary_prec (t : token) : option nat :=
  if is_kw "OR" t then Some 1
  else if is_kw "AND" t then Some 2
  else if (is_op "=" t || is_op "<" t || is_op ">" t
           || is_kw "LIKE" t || is_kw "ILIKE" t)%bool then Some 3
  else if (is_op "+" t || is_op "-" t)%bool then Some 4
  else if (is_op "*" t || is_op "/" t)%bool then Some 5
  else None.

(** Modelled from the spec: the expression level of the missing
    parser, recursive descent with precedence climbing.  [fuel] bounds
    the nesting depth. *)
Fixpoint parse_expr (fuel : nat) (min_prec : nat) (toks : list token)
    {struct fuel} : res (expr * list token) :=
  match fuel with
  | O => parse_error "Expression nested too deeply" toks
  | S f =>
      and_then (parse_primary f toks)
               (fun '(lhs, rest) => climb f min_prec lhs rest)
  end

with climb (fuel : nat) (min_prec : nat) (lhs : expr) (toks : list token)
    {struct fuel} : res (expr * list token) :=
  match fuel with
  | O => parse_error "Expression nested too deeply" toks
  | S f =>
      match toks with
      | t :: rest =>
          match binary_prec t with
          | Some p =>
              if Nat.leb min_prec p
              then and_then (parse_expr f (S p) rest)
                     (fun '(rhs, rest') =>
                        climb f min_prec (Binary (tok_text t) lhs rhs) rest')
              else inr (lhs, toks)
          | None => inr (lhs, toks)
          end
      | [] => inr (lhs, toks)
      end
  end

with parse_primary (fuel : nat) (toks : list token)
    {struct fuel} : res (expr * list token) :=
  match fuel with
  | O => parse_error "Expression nested too deeply" toks
  | S f =>
      match toks with
      | [] => parse_error "Expected an expression" toks
      | t :: rest =>
          match tok_type t with
          | TNumber => inr (Number (tok_text t), rest)
          | TString => inr (Text (tok_text t), rest)
          | TOperator =>
              if is_op "*" t then inr (Star, rest)
              else if is_op "(" t
              then and_then (parse_expr f 0 rest)
                     (fun '(inner, rest') =>
                        match rest' with
                        | c :: rest'' =>
                            if is_op ")" c then inr (Paren inner, rest'')
                            else parse_error "Expected )" rest'
                        | [] => parse_error "Expected )" rest'
                        end)
              else parse_error "Unexpected operator" toks
          | TIdentifier =>
              match rest with
              | o :: rest' =>
                  if is_op "(" o
                  then and_then (parse_list f ")" rest')
                         (fun '(args, rest'') => inr (Func (tok_text t) args, rest''))
                  else if is_op "." o
                  then match rest' with
                       | n :: rest'' =>
                           match tok_type n with
                           | TIdentifier =>
                               inr (Column (Some (tok_text t)) (tok_text n), rest'')
                           | _ => parse_error "Expected a column name" rest'
                           end
                       | [] => parse_error "Expected a column name" rest'
                       end
                  else inr (Column None (tok_text t), rest)
              | [] => inr (Column None (tok_text t), rest)
              end
          | TKeyword =>
              if is_kw "ARRAY" t
              then match rest with
                   | o :: rest' =>
                       if is_op "[" o
                       then and_then (parse_list f "]" rest')
                              (fun '(items, rest'') => inr (ArrayLit items, rest''))
                       else parse_error "Expected [" rest
                   | [] => parse_error "Expected [" rest
                   end
              else parse_error "Unexpected keyword" toks
          end
      end
  end

(** The comma-separated expressions after an opening bracket, up to
    and including the closing one. *)
with parse_list (fuel : nat) (close : string) (toks : list token)
    {struct fuel} : res (list expr * list token) :=
  match fuel with
  | O => parse_error "Expression nested too deeply" toks
  | S f =>
      match toks with
      | [] => parse_error "Expected an expression" toks
      | t :: rest =>
          if is_op close t then inr ([], rest)
          else and_then (parse_expr f 0 toks)
                 (fun '(e, rest1) =>
                    match rest1 with
                    | s :: rest2 =>
                        if is_op close s then inr ([e], rest2)
                        else if is_op "," s
                        then and_then (parse_list f close rest2)
                               (fun '(es, rest3) => inr (e :: es, rest3))
                        else parse_error "Expected , or closing bracket" rest1
                    | [] => parse_error "Expected , or closing bracket" rest1
                    end)
      end
  end.

(** Enough depth for any expression over [toks]: a level of nesting
    or an operator costs at most three calls and at least one token. *)
Definition expr_fuel (toks : list token) : nat := 4 * List.length toks + 4.

Definition ident_text (t : token) : option string :=
  match tok_type t with
  | TIdentifier => Some (tok_text t)
  | _ => None
  end.

(** An optional [AS alias] or bare [alias]. *)
Definition parse_alias (bare : bool) (toks : list token)
  : option string * list token :=
  match toks with
  | a :: rest =>
      if is_kw "AS" a
      then match rest with
           | n :: rest' =>
               match ident_text n with
               | Some name => (Some name, rest')
               | None => (None, toks)
               end
           | [] => (None, toks)
           end
      else match ident_text a with
           | Some name => if bare then (Some name, rest) else (None, toks)
           | None => (None, toks)
           end
  | [] => (None, toks)
  end.

(** The select list: [expr [AS alias] {, expr [AS alias]}]. *)
Fixpoint parse_items (fuel : nat) (toks : list token)
    {struct fuel} : res (list (expr * option string) * list token) :=
  match fuel with
  | O => parse_error "Select list too long" toks
  | S f =>
      and_then (parse_expr (expr_fuel toks) 0 toks)
        (fun '(e, rest) =>
           let '(alias, rest1) := parse_alias false rest in
           match rest1 with
           | c :: rest2 =>
               if is_op "," c
               then and_then (parse_items f rest2)
                      (fun '(more, rest3) => inr ((e, alias) :: more, rest3))
               else inr ([(e, alias)], rest1)
           | [] => inr ([(e, alias)], rest1)
           end)
  end.

Definition parse_table (toks : list token) : res (table_ref * list token) :=
  match toks with
  | t :: rest =>
      match ident_text t with
      | Some name =>
          let '(alias, rest') := parse_alias true rest in
          inr (mkTable name alias, rest')
      | None => parse_error "Expected a table name" toks
      end
  | [] => parse_error "Expected a table name" toks
  end.

(** The keywords that open a join, and what follows them. *)
Definition join_head (toks : list token) : option (string * list token) :=
  match toks with
  | j :: rest =>
      if is_kw "JOIN" j then Some ("", rest)
      else if (is_kw "LEFT" j || is_kw "RIGHT" j || is_kw "INNER" j)%bool
      then match rest with
           | j' :: rest' =>
               if is_kw "JOIN" j' then Some (tok_text j, rest') else None
           | [] => None
           end
      else None
  | [] => None
  end.

Fixpoint parse_joins (fuel : nat) (toks : list token)
    {struct fuel} : res (list join * list token) :=
  match fuel with
  | O => parse_error "Too many joins" toks
  | S f =>
      match join_head toks with
      | None => inr ([], toks)
      | Some (kind, rest) =>
          and_then (parse_table rest)
            (fun '(tbl, rest1) =>
               match rest1 with
               | o :: rest2 =>
                   if is_kw "ON" o
                   then and_then (parse_expr (expr_fuel rest2) 0 rest2)
                          (fun '(cond, rest3) =>
                             and_then (parse_joins f rest3)
                               (fun '(more, rest4) =>
                                  inr (mkJoin kind tbl cond :: more, rest4)))
                   else parse_error "Expected ON" rest1
               | [] => parse_error "Expected ON" rest1
               end)
      end
  end.

(** What follows the keyword [SELECT]. *)
Definition parse_select (toks : list token) : res (statement * list token) :=
  and_then (parse_items (S (List.length toks)) toks)
    (fun '(items, rest) =>
       and_then
         (match rest with
          | f :: rest1 =>
              if is_kw "FROM" f
              then and_then (parse_table rest1)
                     (fun '(tbl, rest2) =>
                        and_then (parse_joins (S (List.length rest2)) rest2)
                          (fun '(js, rest3) => inr (Some tbl, js, rest3)))
              else inr (None, [], rest)
          | [] => inr (None, [], rest)
          end)
         (fun '(from, js, rest3) =>
            match rest3 with
            | w :: rest4 =>
                if is_kw "WHERE" w
                then and_then (parse_expr (expr_fuel rest4) 0 rest4)
                       (fun '(cond, rest5) =>
                          inr (Select items from js (Some cond), rest5))
                else inr (Select items from js None, rest3)
            | [] => inr (Select items from js None, rest3)
            end)).

(** The column definitions after the opening bracket of [CREATE TABLE],
    up to and including the closing one. *)
Fixpoint parse_columns (d : dialect) (fuel : nat) (toks : list token)
    {struct fuel} : res (list column_def * list token) :=
  match fuel with
  | O => parse_error "Too many columns" toks
  | S f =>
      match toks with
      | c :: ty :: rest =>
          match ident_text c with
          | None => parse_error "Expected a column name" toks
          | Some name =>
              if existsb (String.eqb (upper (tok_text ty))) (type_names d)
              then
                let '(pk, rest1) :=
                  match rest with
                  | p :: k :: rest' =>
                      if (is_kw "PRIMARY" p && is_kw "KEY" k)%bool
                      then (true, rest') else (false, rest)
                  | _ => (false, rest)
                  end in
                let col := mkColumn name (upper (tok_text ty)) pk in
                match rest1 with
                | s :: rest2 =>
                    if is_op ")" s then inr ([col], rest2)
                    else if is_op "," s
                    then and_then (parse_columns d f rest2)
                           (fun '(more, rest3) => inr (col :: more, rest3))
                    else parse_error "Expected , or )" rest1
                | [] => parse_error "Expected , or )" rest1
                end
              else parse_error "Unknown data type" (ty :: rest)
          end
      | _ => parse_error "Expected a column definition" toks
      end
  end.

(** Modelled from the spec: the statement level of the missing parser.
    A statement that is neither a [SELECT] nor a [CREATE TABLE] of the
    grammar above, or that leaves tokens unread, is an error. *)
Definition parse_statement (d : dialect) (toks : list token) : res statement :=
  and_then
    (match toks with
     | k :: rest =>
         if is_kw "SELECT" k then parse_select rest
         else if is_kw "CREATE" k
         then match rest with
              | t :: n :: o :: rest' =>
                  match ident_text n with
                  | Some name =>
                      if (is_kw "TABLE" t && is_op "(" o)%bool
                      then and_then (parse_columns d (S (List.length rest')) rest')
                             (fun '(cols, rest'') => inr (CreateTable name cols, rest''))
                      else parse_error "Expected TABLE name (" rest
                  | None => parse_error "Expected TABLE name (" rest
                  end
              | _ => parse_error "Expected TABLE name (" rest
              end
         else parse_error "Unsupported statement" toks
     | [] => parse_error "No statement" toks
     end)
    (fun '(stmt, rest) =>
       match rest with
       | [] => inr stmt
       | _ :: _ => parse_error "Unexpected token" rest
       end).

(** The token stream cut at each [;]. *)
Fixpoint split_statements (toks : list token) (current : list token)
  : list (list token) :=
  match toks with
  | [] => [current]
  | t :: rest =>
      if is_op ";" t then current :: split_statements rest []
      else split_statements rest (current ++ [t])
  end.

Fixpoint all_ok {A B} (f : A -> res B) (xs : list A) : res (list B) :=
  match xs with
  | [] => inr []
  | x :: rest =>
      and_then (f x) (fun y => and_then (all_ok f rest) (fun ys => inr (y :: ys)))
  end.

Definition nonempty {A} (xs : list A) : bool :=
  match xs with [] => false | _ :: _ => true end.

(** Modelled from the spec: the missing parse entry point, text to
    tokens to one syntax tree per statement. *)
Definition parse (d : dialect) (sql : string) : res (list statement) :=
  and_then (tokenize d sql)
    (fun toks =>
       all_ok (parse_statement d) (filter nonempty (split_statements toks []))).

(* --------------------------------------------------------------- *)

Definition render_name (d : dialect) (name : string) : string :=
  match find (fun p => String.eqb (fst p) (upper name)) (renames d) with
  | Some (_, rendered) => rendered
  | None => name
  end.

(** Modelled from the spec: the missing generator on expressions: it
    walks the tree and emits SQL text, function names rendered by the
    dialect's rules. *)
Fixpoint generate_expr (d : dialect) (e : expr) : string :=
  match e with
  | Star => "*"
  | Column None name => name
  | Column (Some q) name => q ++ "." ++ name
  | Number text => text
  | Text text => String quote text ++ String quote ""
  | Func name args =>
      render_name d name ++ "("
        ++ String.concat ", " (map (generate_expr d) args) ++ ")"
  | Binary op lhs rhs =>
      generate_expr d lhs ++ " " ++ op ++ " " ++ generate_expr d rhs
  | ArrayLit items =>
      "ARRAY[" ++ String.concat ", " (map (generate_expr d) items) ++ "]"
  | Paren inner => "(" ++ generate_expr d inner ++ ")"
  end.

Definition generate_alias (alias : option string) : string :=
  match alias with
  | Some a => " AS " ++ a
  | None => ""
  end.

Definition generate_table (t : table_ref) : string :=
  table_name t ++ generate_alias (table_alias t).

Definition generate_join (d : dialect) (j : join) : string :=
  (if String.eqb (join_kind j) "" then " JOIN " else " " ++ join_kind j ++ " JOIN ")
    ++ generate_table (join_table j) ++ " ON " ++ generate_expr d (join_on j).

Definition generate_column (c : column_def) : string :=
  col_name c ++ " " ++ col_type c
    ++ (if col_primary_key c then " PRIMARY KEY" else "").

(** Modelled from the spec: the missing generator on statements. *)
Definition generate (d : dialect) (s : statement) : string :=
  match s with
  | Select items from joins where_ =>
      "SELECT "
        ++ String.concat ", "
             (map (fun '(e, alias) => (generate_expr d e ++ generate_alias alias)%string) items)
        ++ match from with
           | Some t => " FROM " ++ generate_table t
           | None => ""
           end
        ++ String.concat "" (map (generate_join d) joins)
        ++ match where_ with
           | Some cond => " WHERE " ++ generate_expr d cond
           | None => ""
           end
  | CreateTable name columns =>
      "CREATE TABLE " ++ name ++ " ("
        ++ String.concat ", " (map generate_column columns) ++ ")"
  end.

(* --------------------------------------------------------------- *)

Definition common_reserved : list string :=
  [ "SELECT"; "FROM"; "WHERE"; "AS"; "JOIN"; "LEFT"; "RIGHT"; "INNER"; "ON";
    "AND"; "OR"; "LIKE"; "ILIKE"; "ARRAY"; "CREATE"; "TABLE"; "PRIMARY";
    "KEY"; "LATERAL"; "COPY"; "LOCAL"; "WITH"; "OVER"; "GROUP"; "ORDER"; "BY" ].

Definition common_types : list string :=
  [ "INTEGER"; "INT"; "BIGINT"; "FLOAT"; "NUMERIC"; "BOOLEAN"; "VARCHAR";
    "DATE"; "TIMESTAMP" ].

(** Modelled from the spec: the missing Vertica dialect. *)
Definition vertica : dialect :=
  mkDialect common_reserved
            (common_types ++ ["TIMESTAMPTZ"; "BYTEA"; "VARBINARY"])
            [].

Definition postgres : dialect :=
  mkDialect common_reserved (common_types ++ ["TIMESTAMPTZ"; "BYTEA"]) [].

Definition mysql : dialect :=
  mkDialect common_reserved (common_types ++ ["DATETIME"; "BLOB"])
            [("APPROXIMATE_COUNT_DISTINCT", "APPROX_COUNT_DISTINCT")].

Definition sqlite : dialect :=
  mkDialect common_reserved (common_types ++ ["TEXT"; "BLOB"])
            [("NOW", "CURRENT_TIMESTAMP")].

(** Modelled from the spec: the missing dialect registry, from dialect
    name to rules. *)
Definition registry : list (string * dialect) :=
  [ ("vertica", vertica); ("postgres", postgres);
    ("mysql", mysql); ("sqlite", sqlite) ].

(** The registry is consulted once, when a call starts. *)
Definition resolve (name : string) : res dialect :=
  match find (fun p => String.eqb (fst p) name) registry with
  | Some (_, d) => inr d
  | None => inl (mkException ValueError ("Unknown dialect '" ++ name ++ "'"))
  end.

(** Modelled from the spec: the missing transpilation, parsing in the
    source dialect and generating in the target one. *)
Definition transpile_text (sql read write : string) : res (list string) :=
  and_then (resolve read) (fun r =>
  and_then (resolve write) (fun w =>
  and_then (parse r sql) (fun stmts =>
  inr (map (generate w) stmts)))).

(** What [find_all] yields: a statement or one of its parts. *)
Inductive node : Type :=
| NStatement (s : statement)
| NExpr (e : expr)
| NTable (t : table_ref).

Fixpoint funcs_of (e : expr) : list expr :=
  match e with
  | Func _ args => e :: flat_map funcs_of args
  | Binary _ lhs rhs => funcs_of lhs ++ funcs_of rhs
  | ArrayLit items => flat_map funcs_of items
  | Paren inner => funcs_of inner
  | _ => []
  end.

Definition exprs_of (s : statement) : list expr :=
  match s with
  | Select items _ joins where_ =>
      map fst items ++ map join_on joins
        ++ match where_ with Some c => [c] | None => [] end
  | CreateTable _ _ => []
  end.

Definition tables_of (s : statement) : list table_ref :=
  match s with
  | Select _ from joins _ =>
      match from with Some t => [t] | None => [] end ++ map join_table joins
  | CreateTable _ _ => []
  end.

Definition find_nodes (n : node) (kind : string) : list node :=
  match n with
  | NStatement s =>
      if String.eqb kind "Table" then map NTable (tables_of s)
      else if String.eqb kind "Func"
      then map NExpr (flat_map funcs_of (exprs_of s))
      else []
  | NExpr e =>
      if String.eqb kind "Func" then map NExpr (funcs_of e) else []
  | NTable t =>
      if String.eqb kind "Table" then [n] else []
  end.

Definition generate_node (d : dialect) (n : node) : string :=
  match n with
  | NStatement s => generate d s
  | NExpr e => generate_expr d e
  | NTable t => generate_table t
  end.

(** [parse_one]: the first statement of the text. *)
Definition parse_first (d : dialect) (sql : string) : res node :=
  and_then (parse d sql)
    (fun stmts =>
       match stmts with
       | s :: _ => inr (NStatement s)
       | [] => inl (mkException ParseError "No expression was parsed")
       end).

(** Modelled from the spec: the missing library as the scripts import
    it, the Vertica dialect over the pipeline above. *)
Definition library : Library :=
  {| ast := node;
     import_sqlglot := None;
     import_vertica := None;
     Vertica_parse := fun sql =>
       and_then (parse vertica sql) (fun stmts => inr (map NStatement stmts));
     Vertica_generate := fun n => inr (generate_node vertica n);
     parse_one := parse_first vertica;
     ast_sql := fun n => inr (generate_node vertica n);
     transpile := transpile_text;
     find_all := fun n kind => inr (find_nodes n kind) |}.

End SqlModel.

(* ================================================================= *)
(** ** Sample hosts and libraries *)

Module Sample.

(** A clock that advances one second per reading. *)
Definition steady_clock (n : nat) : float := float_of_int (Z.of_nat n).

(** A host on which every child completes with the same status and
    captured output. *)
Definition completing_host (rc : Z) (out err : string) : Host :=
  mkHost steady_clock "python3" "examples"
         (fun _ _ _ => inr (mkCompleted rc out err)).

(** A host on which every child outlives the timeout. *)
Definition stalling_host : Host :=
  mkHost steady_clock "python3" "examples"
         (fun argv _ timeout =>
            inl (mkException TimeoutExpired
                   "Command timed out after 30 seconds")).

(** A host on which the interpreter cannot be started. *)
Definition broken_host : Host :=
  mkHost steady_clock "python3" "examples"
         (fun _ _ _ =>
            inl (mkException OSError "[Errno 2] No such file or directory")).

(** A host on which [data_migration.py] alone fails. *)
Definition mixed_host : Host :=
  mkHost steady_clock "python3" "examples"
         (fun argv _ _ =>
            if existsb (String.eqb "data_migration.py") argv
            then inr (mkCompleted 2 "" "Traceback (most recent call last)")
            else inr (mkCompleted 0 "done" "")).

(** A library that accepts every text. *)
Definition accepting_library : Library :=
  {| ast := string;
     import_sqlglot := None;
     import_vertica := None;
     Vertica_parse := fun sql => inr [sql];
     Vertica_generate := fun tree => inr tree;
     parse_one := fun sql => inr sql;
     ast_sql := fun tree => inr tree;
     transpile := fun sql _ _ => inr [sql];
     find_all := fun _ _ => inr [] |}.

Definition invalid : Exception := mkException ParseError "Invalid expression".

(** A library that rejects every text. *)
Definition rejecting_library : Library :=
  {| ast := string;
     import_sqlglot := None;
     import_vertica := None;
     Vertica_parse := fun _ => inl invalid;
     Vertica_generate := fun _ => inl invalid;
     parse_one := fun _ => inl invalid;
     ast_sql := fun _ => inl invalid;
     transpile := fun _ _ _ => inl invalid;
     find_all := fun _ _ => inl invalid |}.

(** A library that parses every text and cannot generate. *)
Definition parsing_only_library : Library :=
  {| ast := string;
     import_sqlglot := None;
     import_vertica := None;
     Vertica_parse := fun sql => inr [sql];
     Vertica_generate := fun _ => inl (mkException UnsupportedError "Cannot generate");
     parse_one := fun sql => inr sql;
     ast_sql := fun _ => inl (mkException UnsupportedError "Cannot generate");
     transpile := fun _ _ _ => inl (mkException UnsupportedError "Cannot generate");
     find_all := fun _ _ => inr [] |}.

(** A library whose dialect module cannot be imported. *)
Definition missing_library : Library :=
  {| ast := string;
     import_sqlglot := None;
     import_vertica :=
       Some (mkException ImportError "No module named 'sqlglot_vertica'");
     Vertica_parse := fun sql => inr [sql];
     Vertica_generate := fun tree => inr tree;
     parse_one := fun sql => inr sql;
     ast_sql := fun tree => inr tree;
     transpile := fun sql _ _ => inr [sql];
     find_all := fun _ _ => inr [] |}.

(** A library whose parser and transpiler find no statement in any
    text. *)
Definition empty_library : Library :=
  {| ast := string;
     import_sqlglot := None;
     import_vertica := None;
     Vertica_parse := fun _ => inr [];
     Vertica_generate := fun tree => inr tree;
     parse_one := fun sql => inr sql;
     ast_sql := fun tree => inr tree;
     transpile := fun _ _ _ => inr [];
     find_all := fun _ _ => inr [] |}.

(** A host on which every child fails with a short message on stderr. *)
Definition failing_host : Host := completing_host 1 "" "ModuleNotFoundError".

End Sample.

(* ================================================================= *)
(** ** Reasoning about runs *)

(** The world after more events. *)
Definition logged (w : world) (evs : list event) : world :=
  mkWorld (trace w ++ evs) (ticks w).

(** The world after one more clock reading and further events. *)
Definition ticked (w : world) (n : nat) : world :=
  mkWorld (trace w) (n + ticks w).

(** How [run_example_script] reads the end of the subprocess: the
    [success] flag and the [output] it returns. *)
Definition child_report (r : Exception + CompletedProcess) : bool * string :=
  match r with
  | inr p =>
      if Z.eqb (returncode p) 0 then (true, stdout p) else (false, stderr p)
  | inl e =>
      if isinstance e TimeoutExpired then (false, timeout_message)
      else (false, ("Error running script: " ++ exc_str e)%string)
  end.

(** What the host does for one example script. *)
Definition child_of (h : Host) (script : string) : Exception + CompletedProcess :=
  subprocess_run h [sys_executable h; script] (script_dir h) 30.

Definition child_succeeds (h : Host) (script : string) : bool :=
  fst (child_report (child_of h script)).

(** The subprocess launches recorded in a trace. *)
Definition launches (t : list event) : list (list string * string * Z) :=
  flat_map (fun e => match e with
                     | Spawned argv cwd timeout => [(argv, cwd, timeout)]
                     | _ => []
                     end) t.

(** The library calls recorded in a trace. *)
Definition calls (t : list event) : list lib_call :=
  flat_map (fun e => match e with Called c => [c] | _ => [] end) t.

(** Whether some printed fragment of the console contains [text]. *)
Definition shown (text : string) (lines : list line) : bool :=
  existsb (existsb (fun f => match f with
                             | Str s | Padded _ s => contains text s
                             | _ => false
                             end)) lines.

(** Why a validation case fails, if it does: the exception of
    [parse_one] or else of [ast.sql]. *)
Definition case_failure (lib : Library) (sql : string) : option Exception :=
  match parse_one lib sql with
  | inl e => Some e
  | inr tree =>
      match ast_sql lib tree with
      | inl e => Some e
      | inr _ => None
      end
  end.

(** The line [quick_dialect_validation] prints for a case. *)
Definition verdict (lib : Library) (tc : string * string) : line :=
  match case_failure lib (snd tc) with
  | None => [Str "✅ "; Str (fst tc); Str ": PASSED"]
  | Some e => [Str "❌ "; Str (fst tc); Str ": FAILED - "; Str (exc_str e)]
  end.

(** Everything one validation case leaves in the trace. *)
Definition case_events (lib : Library) (tc : string * string) : list event :=
  Called (CallParseOne (snd tc))
    :: match parse_one lib (snd tc) with
       | inl _ => []
       | inr _ => [Called CallSql]
       end
    ++ [Printed (verdict lib tc)].

Definition passes (lib : Library) (tc : string * string) : bool :=
  match case_failure lib (snd tc) with None => true | Some _ => false end.

(** The number of items of [xs] that satisfy [f], as a Python [int]. *)
Definition tally {A} (f : A -> bool) (xs : list A) : Z :=
  Z.of_nat (List.length (filter f xs)).

(** The line the transpilation loop of [demonstrate_key_features]
    prints for a target dialect. *)
Definition transpile_line (lib : Library) (target : string) : line :=
  match transpile lib vertica_sql "vertica" target with
  | inr (converted :: _) =>
      [Str "   "; Str (upper target); Str ": "; Str converted]
  | inr [] =>
      [Str "   "; Str (upper target); Str ": Error - ";
       Str "list index out of range"]
  | inl e =>
      [Str "   "; Str (upper target); Str ": Error - "; Str (exc_str e)]
  end.

Definition transpile_events (lib : Library) (target : string) : list event :=
  [Called (CallTranspile vertica_sql "vertica" target);
   Printed (transpile_line lib target)].

(** The line the loop over [unsupported_cases] prints for a case. *)
Definition reject_line (lib : Library) (uc : string * string) : line :=
  match parse_one lib (snd uc) with
  | inr _ => [Str "   ❌ "; Str (fst uc); Str ": Should have failed but didn't"]
  | inl e => [Str "   ✅ "; Str (fst uc); Str ": Correctly rejected - ";
              Str (class_name (exc_type e))]
  end.

Definition reject_events (lib : Library) (uc : string * string) : list event :=
  [Called (CallParseOne (snd uc)); Printed (reject_line lib uc)].

(** The line the loop over [vertica_functions] prints for a query. *)
Definition function_line (lib : Library) (sql : string) : line :=
  match parse_one lib sql with
  | inr _ => [Str "   ✅ "; Str sql]
  | inl e => [Str "   ❌ "; Str sql; Str " - Error: "; Str (exc_str e)]
  end.

Definition function_events (lib : Library) (sql : string) : list event :=
  [Called (CallParseOne sql); Printed (function_line lib sql)].

(** Everything [demonstrate_key_features] leaves in the trace. *)
Definition feature_events (lib : Library) : list event :=
  [Printed [Str "🌟 KEY FEATURES DEMONSTRATION"];
   Printed [Str (str_mul "=" 60)];
   Printed [Str "1. Cross-Dialect Transpilation:"]]
  ++ flat_map (transpile_events lib) targets
  ++ [Printed []; Printed [Str "2. Error Handling for Unsupported Features:"]]
  ++ flat_map (reject_events lib) unsupported_cases
  ++ [Printed []; Printed [Str "3. Vertica-Specific Functions:"]]
  ++ flat_map (function_events lib) vertica_functions
  ++ [Printed []].

(** Everything [quick_dialect_validation] leaves in the trace. *)
Definition validation_events (lib : Library) : list event :=
  [Printed [Str "🔍 QUICK DIALECT VALIDATION"]; Printed [Str (str_mul "=" 60)]]
  ++ flat_map (case_events lib) test_cases
  ++ [Printed [Str nl; Str "Validation Results: ";
               Int (tally (passes lib) test_cases); Str " passed, ";
               Int (tally (fun tc => negb (passes lib tc)) test_cases);
               Str " failed"];
      Printed []].

(** The elapsed time and the average [benchmark] computes from the
    clock readings [t0] and [t1]. *)
Definition elapsed (t0 t1 : float) : float := PrimFloat.sub t1 t0.

Definition average_ms (t0 t1 : float) : float :=
  PrimFloat.mul (PrimFloat.div (elapsed t0 t1) (float_of_int 100))
                (float_of_int 1000).

(** What the timed loop leaves in the trace when the query parses. *)
Definition benchmark_events (t0 t1 : float) : list event :=
  ClockRead t0 :: repeat (Called (CallParseOne test_sql)) 100 ++ [ClockRead t1].

(** How the node counting of [show_performance_summary] ends for a
    parsed query, and what it leaves in the trace. *)
Definition complexity_run (lib : Library) (tree : ast lib)
  : outcome unit * list event :=
  match find_all lib tree "Table" with
  | inl e => (Raise (Exc e), [Called (CallFindAll "Table")])
  | inr tables =>
      match find_all lib tree "Func" with
      | inl e => (Raise (Exc e),
                  [Called (CallFindAll "Table"); Called (CallFindAll "Func")])
      | inr functions =>
          match find_all lib tree "Window" with
          | inl e => (Raise (Exc e),
                      [Called (CallFindAll "Table"); Called (CallFindAll "Func");
                       Called (CallFindAll "Window")])
          | inr windows =>
              (Ret tt,
               [Called (CallFindAll "Table"); Called (CallFindAll "Func");
                Called (CallFindAll "Window");
                Printed [Str nl; Str "AST Complexity:"];
                Printed [Str "  Tables: "; Int (len tables)];
                Printed [Str "  Functions: "; Int (len functions)];
                Printed [Str "  Window functions: "; Int (len windows)];
                Printed []])
          end
      end
  end.

(** How [show_performance_summary] ends when the clock is read for the
    [n]-th time, what it leaves in the trace, and how many clock readings
    it makes. *)
Definition performance_run (h : Host) (lib : Library) (n : nat)
  : outcome unit * list event * nat :=
  let banner := [Printed [Str "⚡ PERFORMANCE SUMMARY"];
                 Printed [Str (str_mul "=" 60)]] in
  match parse_one lib test_sql with
  | inl e =>
      (Raise (Exc e),
       banner ++ [ClockRead (clock h n); Called (CallParseOne test_sql)], 1)
  | inr tree =>
      let t0 := clock h n in
      let t1 := clock h (S n) in
      (fst (complexity_run lib tree),
       banner ++ benchmark_events t0 t1
         ++ [Printed [Str "Parse Performance:"];
             Printed [Str "  Complex query parsing: "; Fixed 2 (average_ms t0 t1);
                      Str "ms average ("; Int 100; Str " iterations)"];
             Printed [Str "  Total time: "; Fixed 3 (elapsed t0 t1); Str "s"];
             Called (CallParseOne test_sql)]
         ++ snd (complexity_run lib tree),
       2)
  end.

(** The entry of [results] for a script launched when the clock is read
    for the [n]-th time. *)
Definition script_row (h : Host) (script : string) (n : nat) : result_row :=
  (script, child_succeeds h script, PrimFloat.sub (clock h (S n)) (clock h n)).

(** What [main] prints about a script once it has ended. *)
Definition script_lines (h : Host) (script : string) (n : nat) : list line :=
  let exec_time := PrimFloat.sub (clock h (S n)) (clock h n) in
  (if child_succeeds h script
   then [[Str "  ✅ Completed successfully in "; Fixed 2 exec_time; Str "s"]]
   else [[Str "  ❌ Failed after "; Fixed 2 exec_time; Str "s"];
         [Str "  Error: ";
          Str (prefix_slice 200 (snd (child_report (child_of h script))));
          Str "..."]])
  ++ [[]].

(** Everything one turn of the loop over [example_scripts] leaves in
    the trace. *)
Definition script_events (h : Host) (script : string) (n : nat) : list event :=
  [Printed [Str "Running "; Str script; Str "..."];
   ClockRead (clock h n);
   Spawned [sys_executable h; script] (script_dir h) 30;
   ClockRead (clock h (S n))]
  ++ map Printed (script_lines h script n).

Fixpoint rows_from (h : Host) (scripts : list string) (n : nat) : list result_row :=
  match scripts with
  | [] => []
  | script :: rest => script_row h script n :: rows_from h rest (S (S n))
  end.

Fixpoint script_events_from (h : Host) (scripts : list string) (n : nat)
  : list event :=
  match scripts with
  | [] => []
  | script :: rest => script_events h script n ++ script_events_from h rest (S (S n))
  end.

(** The line of the summary table for an entry of [results]. *)
Definition row_line (r : result_row) : line :=
  let '(script, success, exec_time) := r in
  [Str "  "; Padded 25 script; Str " ";
   Padded 10 (if success : bool then "✅ PASSED" else "❌ FAILED"); Str " (";
   Fixed 2 exec_time; Str "s)"].

(** Everything the summary of [main] leaves in the trace. *)
Definition summary_events (results : list result_row) (total_time : float)
  : list event :=
  [Printed [Str "📊 EXECUTION SUMMARY"];
   Printed [Str (str_mul "=" 60)];
   Printed [Str "Scripts executed: "; Int (len results)];
   Printed [Str "Successful: "; Int (count_successful results)];
   Printed [Str "Failed: "; Int (len results - count_successful results)];
   Printed [Str "Total execution time: "; Fixed 2 total_time; Str "s"];
   Printed [];
   Printed [Str "Individual script results:"]]
  ++ map (fun r => Printed (row_line r)) results
  ++ [Printed []]
  ++ (if forallb row_success results
      then [Printed [Str "🎉 ALL EXAMPLES COMPLETED SUCCESSFULLY!"];
            Printed [Str "The Vertica SQLGlot dialect is working perfectly!"]]
      else [Printed [Str "⚠️  Some examples failed. Check the output above for details."]]).

(** Everything the script-running part of [main] leaves in the trace
    when it starts at the [n]-th clock reading. *)
Definition scripts_events (h : Host) (n : nat) : list event :=
  [Printed [Str "📋 RUNNING ALL EXAMPLE SCRIPTS"];
   Printed [Str (str_mul "=" 60)];
   ClockRead (clock h n)]
  ++ script_events_from h example_scripts (S n)
  ++ [ClockRead (clock h (9 + n))]
  ++ summary_events (rows_from h example_scripts (S n))
                    (PrimFloat.sub (clock h (9 + n)) (clock h n)).

(** What [main] leaves in the trace before the performance summary. *)
Definition prelude_events (lib : Library) : list event :=
  [Printed [Str "🚀 VERTICA SQLGLOT DIALECT - COMPREHENSIVE DEMONSTRATION"];
   Printed [Str (str_mul "=" 80)];
   Printed []]
  ++ validation_events lib ++ feature_events lib.

(** The status [main] returns once the scripts have run. *)
Definition final_status (h : Host) : Z :=
  if forallb (child_succeeds h) example_scripts then 0%Z else 1%Z.

(** The value a run returned, if it returned. *)
Definition returned {A} (o : outcome A) : option A :=
  match o with
  | Ret a => Some a
  | Raise _ => None
  end.

(** A computation that calls no [sys.exit] and whose results satisfy
    [P]: it returns such a result or raises an instance of [Exception]. *)
Definition yields {A} (P : A -> Prop) (m : M A) : Prop :=
  forall w, match m w with
            | (Ret a, _) => P a
            | (Raise (Exc _), _) => True
            | (Raise (SystemExit _), _) => False
            end.

(** The world in which [run_all_examples.py] calls [main], after the
    imports of lines 18-19. *)
Definition imported (w : world) : world :=
  logged w [Called (CallImport "sqlglot" "parse_one, transpile, exp");
            Called (CallImport "sqlglot_vertica.vertica" "Vertica")].

(** The world in which [test_simple.py] calls [test_basic_functionality]. *)
Definition test_simple_start (w : world) : world :=
  logged w [Printed [Str "Testing Vertica SQLGlot Dialect Implementation"];
            Printed [Str (str_mul "=" 50)]].

(** What the [except] clause of [test_basic_functionality] leaves in the
    trace. *)
Definition failure_report (e : Exception) : list event :=
  [Printed [Str "❌ Test failed with error: "; Str (exc_str e)];
   TracebackPrinted e].

(** What the [except] clause of [verify.py] leaves in the trace. *)
Definition error_report (e : Exception) : list event :=
  [Printed [Str "ERROR: "; Str (exc_str e)]; TracebackPrinted e].

(** [Vertica().generate(Vertica.parse(sql)[0])] returns a text that
    [accept] accepts. *)
Definition regenerates (lib : Library) (sql : string) (accept : string -> bool)
  : Prop :=
  exists tree rest generated,
    Vertica_parse lib sql = inr (tree :: rest)
    /\ Vertica_generate lib tree = inr generated
    /\ accept generated = true.

(** What the checks of [test_basic_functionality] ask of the library. *)
Definition smoke_conditions (lib : Library) : Prop :=
  import_vertica lib = None
  /\ import_sqlglot lib = None
  /\ regenerates lib "SELECT * FROM table1"
       (fun generated => String.eqb generated "SELECT * FROM table1")
  /\ regenerates lib "SELECT DATEADD(DAY, 1, CURRENT_DATE)" (contains "DATEADD")
  /\ regenerates lib "SELECT 'hello' ILIKE 'HE%'" (contains "ILIKE")
  /\ regenerates lib "SELECT ARRAY[1, 2, 3]" (contains "ARRAY")
  /\ regenerates lib "CREATE TABLE test (id INTEGER, ts TIMESTAMPTZ)"
       (contains "TIMESTAMPTZ")
  /\ exists first rest,
       transpile lib "SELECT NOW()" "postgres" "vertica" = inr (first :: rest).

(** The clock readings recorded in a trace. *)
Definition readings (t : list event) : list float :=
  flat_map (fun e => match e with ClockRead x => [x] | _ => [] end) t.

(** Whether a console line is a PASSED verdict of
    [quick_dialect_validation]. *)
Definition is_passed_line (l : line) : bool :=
  match l with
  | [Str _; Str _; Str tail] => String.eqb tail ": PASSED"
  | _ => false
  end.


(* ================================================================= *)
(** ** Lemmas on the runtime and on [run_example_script] *)

Lemma app_cons_assoc {A} (xs : list A) (x : A) (ys : list A) :
  (xs ++ [x]) ++ ys = xs ++ x :: ys.
Proof. now rewrite <- app_assoc. Qed.

Lemma console_app (t u : list event) : console (t ++ u) = console t ++ console u.
Proof. unfold console. apply flat_map_app. Qed.

Lemma launches_app (t u : list event) : launches (t ++ u) = launches t ++ launches u.
Proof. unfold launches. apply flat_map_app. Qed.

Lemma calls_app (t u : list event) : calls (t ++ u) = calls t ++ calls u.
Proof. unfold calls. apply flat_map_app. Qed.

(** [run_example_script] in closed form: two clock readings around one
    launch with the 30 second timeout, and the report on how it ended. *)
Lemma run_example_script_eq (h : Host) (script : string) (w : world) :
  run_example_script h script w =
    (Ret (child_report (child_of h script),
          PrimFloat.sub (clock h (S (ticks w))) (clock h (ticks w))),
     mkWorld (trace w ++ [ClockRead (clock h (ticks w));
                          Spawned [sys_executable h; script] (script_dir h) 30;
                          ClockRead (clock h (S (ticks w)))])
             (S (S (ticks w)))).
Proof.
  unfold run_example_script, child_report, child_of, run_subprocess, try_except,
    bind, time_time, emit, ret, raise, except, except_Exception; simpl.
  destruct (subprocess_run h _ _ _) as [e | p]; simpl.
  - destruct (isinstance e TimeoutExpired); simpl;
      now rewrite !app_cons_assoc.
  - destruct (returncode p =? 0)%Z; simpl; now rewrite !app_cons_assoc.
Qed.

Lemma bind_ret_eq {A B} (m : M A) (k : A -> M B) (w w1 : world) (a : A) :
  m w = (Ret a, w1) -> bind m k w = k a w1.
Proof. intros E. unfold bind. now rewrite E. Qed.

Lemma bind_raise_eq {A B} (m : M A) (k : A -> M B) (w w1 : world) (r : raised) :
  m w = (Raise r, w1) -> bind m k w = (Raise r, w1).
Proof. intros E. unfold bind. now rewrite E. Qed.

Lemma print_eq (l : line) (w : world) : print l w = (Ret tt, logged w [Printed l]).
Proof. reflexivity. Qed.

Lemma call_ok_eq {A} (c : lib_call) (a : A) (w : world) :
  call c (inr a) w = (Ret a, logged w [Called c]).
Proof. reflexivity. Qed.

Lemma call_fail_eq {A} (c : lib_call) (e : Exception) (w : world) :
  @call A c (inl e) w = (Raise (Exc e), logged w [Called c]).
Proof. reflexivity. Qed.

Lemma logged_logged (w : world) (a b : list event) :
  logged (logged w a) b = logged w (a ++ b).
Proof. unfold logged; simpl. now rewrite app_assoc. Qed.

Lemma logged_nil (w : world) : logged w [] = w.
Proof. destruct w; unfold logged; simpl. now rewrite app_nil_r. Qed.

(** A [for] loop whose body always returns, leaving [ev x] behind, runs
    over the whole list. *)
Lemma for_each_logged {A} (body : A -> M unit) (ev : A -> list event) :
  (forall x w, body x w = (Ret tt, logged w (ev x))) ->
  forall xs w, for_each xs body w = (Ret tt, logged w (flat_map ev xs)).
Proof.
  intros Hbody xs. induction xs as [| x xs IH]; intros w.
  - simpl. unfold ret. now rewrite logged_nil.
  - simpl for_each. erewrite bind_ret_eq by apply Hbody.
    rewrite IH, logged_logged. reflexivity.
Qed.

Ltac run_print := erewrite bind_ret_eq by apply print_eq.

(* ================================================================= *)
(** ** Lemmas on [quick_dialect_validation] *)

Lemma validate_case_eq (lib : Library) (tc : string * string) (p f : Z) (w : world) :
  validate_case lib tc (p, f) w =
    (Ret (if passes lib tc then ((p + 1)%Z, f) else (p, (f + 1)%Z)),
     logged w (case_events lib tc)).
Proof.
  destruct tc as [name sql].
  unfold validate_case, passes, case_events, verdict, case_failure, logged,
    try_except, call, print, bind, emit, ret, raise, except_Exception; simpl.
  destruct (parse_one lib sql) as [e | tree]; simpl.
  - now rewrite !app_cons_assoc.
  - destruct (ast_sql lib tree) as [e | out]; simpl; now rewrite !app_cons_assoc.
Qed.

Lemma tally_cons {A} (f : A -> bool) (x : A) (xs : list A) :
  tally f (x :: xs) = ((if f x then 1 else 0) + tally f xs)%Z.
Proof. unfold tally. cbn [filter]. destruct (f x); cbn [List.length]; lia. Qed.

Lemma tally_split {A} (f : A -> bool) (xs : list A) :
  (tally f xs + tally (fun x => negb (f x)) xs = len xs)%Z.
Proof.
  induction xs as [| x xs IH]; [reflexivity |].
  rewrite !tally_cons. unfold len in *; simpl List.length.
  destruct (f x); simpl negb; cbv iota; lia.
Qed.

Lemma tally_nonneg {A} (f : A -> bool) (xs : list A) : (0 <= tally f xs)%Z.
Proof. unfold tally; lia. Qed.

(** The loop from any counters: every case is run, whatever the earlier
    ones did. *)
Lemma validation_fold_eq (lib : Library) (cases : list (string * string)) :
  forall (p f : Z) (w : world),
    for_fold cases (p, f) (validate_case lib) w =
      (Ret ((p + tally (passes lib) cases)%Z,
            (f + tally (fun tc => negb (passes lib tc)) cases)%Z),
       logged w (flat_map (case_events lib) cases)).
Proof.
  induction cases as [| tc cases IH]; intros p f w.
  - simpl. unfold ret, tally; simpl. now rewrite logged_nil, !Z.add_0_r.
  - simpl for_fold. unfold bind at 1. rewrite validate_case_eq.
    rewrite !tally_cons. simpl flat_map.
    destruct (passes lib tc); simpl negb; cbv iota; rewrite IH, logged_logged;
      now rewrite !Z.add_assoc, Z.add_0_r.
Qed.

Lemma console_case_events (lib : Library) (tc : string * string) :
  console (case_events lib tc) = [verdict lib tc].
Proof.
  unfold case_events. destruct (parse_one lib (snd tc)); reflexivity.
Qed.

Lemma console_cases (lib : Library) (cases : list (string * string)) :
  console (flat_map (case_events lib) cases) = map (verdict lib) cases.
Proof.
  induction cases as [| tc cases IH]; [reflexivity |].
  change (flat_map (case_events lib) (tc :: cases))
    with (case_events lib tc ++ flat_map (case_events lib) cases).
  now rewrite console_app, console_case_events, IH.
Qed.

(** [quick_dialect_validation] in closed form: it always returns. *)
Lemma quick_dialect_validation_eq (lib : Library) (w : world) :
  quick_dialect_validation lib w = (Ret tt, logged w (validation_events lib)).
Proof.
  unfold quick_dialect_validation, validation_loop, validation_events.
  do 2 run_print.
  erewrite bind_ret_eq by apply validation_fold_eq.
  cbv beta iota.
  run_print. rewrite print_eq, !logged_logged.
  rewrite !Z.add_0_l. reflexivity.
Qed.

(* ================================================================= *)
(** ** Lemmas on [demonstrate_key_features] *)

Lemma transpile_body_eq (lib : Library) (target : string) (w : world) :
  try_except
    (bind (call (CallTranspile vertica_sql "vertica" target)
                (transpile lib vertica_sql "vertica" target))
       (fun out => bind (first_item out)
          (fun converted =>
             print [Str "   "; Str (upper target); Str ": "; Str converted])))
    [ except_Exception (fun e =>
        print [Str "   "; Str (upper target); Str ": Error - "; Str (exc_str e)]) ] w
  = (Ret tt, logged w (transpile_events lib target)).
Proof.
  unfold transpile_events, transpile_line, try_except, call, first_item, print,
    bind, emit, ret, raise, except_Exception, logged; simpl.
  destruct (transpile lib vertica_sql "vertica" target) as [e | [| c out]]; simpl;
    now rewrite !app_cons_assoc.
Qed.

Lemma reject_case_eq (lib : Library) (uc : string * string) (w : world) :
  reject_case lib uc w = (Ret tt, logged w (reject_events lib uc)).
Proof.
  destruct uc as [name sql].
  unfold reject_case, reject_events, reject_line, try_except, call, print,
    bind, emit, ret, raise, except_Exception, logged; simpl.
  destruct (parse_one lib sql) as [e | tree]; simpl; now rewrite !app_cons_assoc.
Qed.

Lemma function_body_eq (lib : Library) (sql : string) (w : world) :
  try_except
    (bind (call (CallParseOne sql) (parse_one lib sql))
       (fun tree => print [Str "   ✅ "; Str sql]))
    [ except_Exception (fun e =>
        print [Str "   ❌ "; Str sql; Str " - Error: "; Str (exc_str e)]) ] w
  = (Ret tt, logged w (function_events lib sql)).
Proof.
  unfold function_events, function_line, try_except, call, print,
    bind, emit, ret, raise, except_Exception, logged; simpl.
  destruct (parse_one lib sql) as [e | tree]; simpl; now rewrite !app_cons_assoc.
Qed.

(** [demonstrate_key_features] in closed form: it always returns. *)
Lemma demonstrate_key_features_eq (lib : Library) (w : world) :
  demonstrate_key_features lib w = (Ret tt, logged w (feature_events lib)).
Proof.
  unfold demonstrate_key_features, feature_events.
  do 3 run_print.
  erewrite bind_ret_eq
    by (apply (for_each_logged _ (transpile_events lib)); intros;
        apply transpile_body_eq).
  do 2 run_print.
  erewrite bind_ret_eq
    by (apply (for_each_logged _ (reject_events lib)); intros;
        apply reject_case_eq).
  do 2 run_print.
  erewrite bind_ret_eq
    by (apply (for_each_logged _ (function_events lib)); intros;
        apply function_body_eq).
  rewrite print_eq, !logged_logged.
  now rewrite <- ?app_assoc.
Qed.

(* ================================================================= *)
(** ** Lemmas on [show_performance_summary] *)

Lemma time_time_eq (h : Host) (w : world) :
  time_time h w =
    (Ret (clock h (ticks w)),
     mkWorld (trace w ++ [ClockRead (clock h (ticks w))]) (S (ticks w))).
Proof. reflexivity. Qed.

Lemma flat_map_const {A B} (xs : list A) (b : B) :
  flat_map (fun _ => [b]) xs = repeat b (List.length xs).
Proof. induction xs as [| x xs IH]; simpl; [reflexivity | now rewrite IH]. Qed.

Lemma range_length : List.length (range iterations) = 100.
Proof. reflexivity. Qed.

(** The timed loop when the query parses: one hundred calls between the
    two clock readings. *)
Lemma benchmark_ok_eq (h : Host) (lib : Library) (tree : ast lib) (w : world) :
  parse_one lib test_sql = inr tree ->
  benchmark h lib w =
    (Ret (elapsed (clock h (ticks w)) (clock h (S (ticks w))),
          average_ms (clock h (ticks w)) (clock h (S (ticks w)))),
     mkWorld (trace w ++ benchmark_events (clock h (ticks w)) (clock h (S (ticks w))))
             (S (S (ticks w)))).
Proof.
  intros Hparse. unfold benchmark.
  erewrite bind_ret_eq by apply time_time_eq.
  erewrite bind_ret_eq.
  2:{ apply (for_each_logged _ (fun _ => [Called (CallParseOne test_sql)])).
      intros x w0. rewrite Hparse.
      erewrite bind_ret_eq by apply call_ok_eq. reflexivity. }
  erewrite bind_ret_eq by apply time_time_eq.
  rewrite flat_map_const, range_length.
  unfold ret, logged, benchmark_events, average_ms, elapsed.
  cbn [trace ticks].
  now rewrite <- !app_assoc.
Qed.

(** The timed loop when the query does not parse: the first call raises
    and nothing is measured. *)
Lemma benchmark_fail_eq (h : Host) (lib : Library) (e : Exception) (w : world) :
  parse_one lib test_sql = inl e ->
  benchmark h lib w =
    (Raise (Exc e),
     mkWorld (trace w ++ [ClockRead (clock h (ticks w)); Called (CallParseOne test_sql)])
             (S (ticks w))).
Proof.
  intros Hparse. unfold benchmark.
  erewrite bind_ret_eq by apply time_time_eq.
  erewrite bind_raise_eq; [reflexivity |].
  change (range iterations) with (0%Z :: tl (range iterations)).
  simpl for_each. rewrite Hparse.
  erewrite bind_raise_eq; [reflexivity |].
  erewrite bind_raise_eq; [reflexivity |].
  rewrite call_fail_eq. unfold logged; simpl. now rewrite <- app_assoc.
Qed.

Lemma count_nodes_ok_eq (lib : Library) (tree : ast lib) (node : string)
    (found : list (ast lib)) (w : world) :
  find_all lib tree node = inr found ->
  count_nodes lib tree node w = (Ret (len found), logged w [Called (CallFindAll node)]).
Proof. intros E. unfold count_nodes. now rewrite E. Qed.

Lemma count_nodes_fail_eq (lib : Library) (tree : ast lib) (node : string)
    (e : Exception) (w : world) :
  find_all lib tree node = inl e ->
  count_nodes lib tree node w = (Raise (Exc e), logged w [Called (CallFindAll node)]).
Proof. intros E. unfold count_nodes. now rewrite E. Qed.

(** [show_performance_summary] in closed form. *)
Lemma show_performance_summary_eq (h : Host) (lib : Library) (w : world) :
  show_performance_summary h lib w =
    (fst (fst (performance_run h lib (ticks w))),
     mkWorld (trace w ++ snd (fst (performance_run h lib (ticks w))))
             (snd (performance_run h lib (ticks w)) + ticks w)).
Proof.
  unfold show_performance_summary, performance_run.
  do 2 run_print.
  destruct (parse_one lib test_sql) as [e | tree] eqn:Hparse.
  - erewrite bind_raise_eq by (apply benchmark_fail_eq; exact Hparse).
    unfold logged; simpl. now rewrite <- !app_assoc.
  - erewrite bind_ret_eq by (eapply benchmark_ok_eq; exact Hparse).
    cbv beta iota.
    do 3 run_print.
    erewrite bind_ret_eq by apply call_ok_eq.
    unfold complexity_run.
    destruct (find_all lib tree "Table") as [e1 | tables] eqn:H1.
    { erewrite bind_raise_eq by (apply count_nodes_fail_eq; exact H1).
      unfold logged; simpl. now rewrite <- !app_assoc. }
    erewrite bind_ret_eq by (apply count_nodes_ok_eq; exact H1).
    destruct (find_all lib tree "Func") as [e2 | functions] eqn:H2.
    { erewrite bind_raise_eq by (apply count_nodes_fail_eq; exact H2).
      unfold logged; simpl. now rewrite <- !app_assoc. }
    erewrite bind_ret_eq by (apply count_nodes_ok_eq; exact H2).
    destruct (find_all lib tree "Window") as [e3 | windows] eqn:H3.
    { erewrite bind_raise_eq by (apply count_nodes_fail_eq; exact H3).
      unfold logged; simpl. now rewrite <- !app_assoc. }
    erewrite bind_ret_eq by (apply count_nodes_ok_eq; exact H3).
    do 4 run_print. rewrite print_eq.
    unfold logged; simpl. now rewrite <- !app_assoc.
Qed.

(* ================================================================= *)
(** ** Lemmas on [main] *)

Lemma run_one_eq (h : Host) (script : string) (results : list result_row)
    (w : world) :
  run_one h script results w =
    (Ret (results ++ [script_row h script (ticks w)]),
     mkWorld (trace w ++ script_events h script (ticks w)) (S (S (ticks w)))).
Proof.
  unfold run_one, script_row, script_events, script_lines, child_succeeds.
  run_print.
  erewrite bind_ret_eq by apply run_example_script_eq.
  cbn [logged ticks trace].
  destruct (child_report (child_of h script)) as [success output].
  cbv beta iota. cbn [fst snd].
  destruct success.
  - run_print. run_print. unfold ret, logged; cbn [trace ticks map app].
    now rewrite <- !app_assoc.
  - erewrite bind_ret_eq.
    2:{ run_print. apply print_eq. }
    run_print. unfold ret, logged; cbn [trace ticks map app].
    now rewrite <- !app_assoc.
Qed.

(** The loop over the scripts: every script is launched, in order,
    whatever the earlier ones did. *)
Lemma run_loop_eq (h : Host) (scripts : list string) :
  forall (results : list result_row) (w : world),
    for_fold scripts results (run_one h) w =
      (Ret (results ++ rows_from h scripts (ticks w)),
       mkWorld (trace w ++ script_events_from h scripts (ticks w))
               (2 * List.length scripts + ticks w)).
Proof.
  induction scripts as [| script scripts IH]; intros results w.
  - simpl. unfold ret. rewrite !app_nil_r. now destruct w.
  - simpl for_fold. erewrite bind_ret_eq by apply run_one_eq.
    rewrite IH. cbn [trace ticks rows_from script_events_from List.length].
    replace (2 * S (List.length scripts) + ticks w)
      with (2 * List.length scripts + S (S (ticks w))) by lia.
    now rewrite <- !app_assoc.
Qed.

Lemma sum_ones {A} (xs : list A) :
  Py.sum (map (fun _ => 1%Z) xs) = len xs.
Proof.
  unfold Py.sum, len.
  assert (H : forall acc, fold_left Z.add (map (fun _ : A => 1%Z) xs) acc
                          = (acc + Z.of_nat (List.length xs))%Z).
  { induction xs as [| x xs IH]; intros acc; cbn [map fold_left List.length].
    - lia.
    - rewrite IH. lia. }
  now rewrite H.
Qed.

Lemma count_successful_tally (results : list result_row) :
  count_successful results = tally row_success results.
Proof. unfold count_successful, tally. now rewrite sum_ones. Qed.

Lemma tally_le_len {A} (f : A -> bool) (xs : list A) : (tally f xs <= len xs)%Z.
Proof.
  pose proof (tally_split f xs). pose proof (tally_nonneg (fun x => negb (f x)) xs).
  lia.
Qed.

Lemma len_cons {A} (x : A) (xs : list A) : len (x :: xs) = (1 + len xs)%Z.
Proof. unfold len. cbn [List.length]. lia. Qed.

Lemma tally_all {A} (f : A -> bool) (xs : list A) :
  Z.eqb (tally f xs) (len xs) = forallb f xs.
Proof.
  induction xs as [| x xs IH]; [reflexivity |].
  rewrite tally_cons, len_cons. cbn [forallb].
  pose proof (tally_le_len f xs).
  destruct (f x); cbn [andb].
  - rewrite <- IH. destruct (Z.eqb_spec (tally f xs) (len xs));
      destruct (Z.eqb_spec (1 + tally f xs) (1 + len xs)); lia || reflexivity.
  - apply Z.eqb_neq. lia.
Qed.

Lemma flat_map_single {A B} (g : A -> B) (xs : list A) :
  flat_map (fun x => [g x]) xs = map g xs.
Proof. induction xs as [| x xs IH]; cbn; congruence. Qed.

Lemma summarise_eq (results : list result_row) (total_time : float) (w : world) :
  summarise results total_time w =
    (Ret (if forallb row_success results then 0%Z else 1%Z),
     logged w (summary_events results total_time)).
Proof.
  unfold summarise, summary_events.
  do 8 run_print.
  erewrite bind_ret_eq.
  2:{ apply (for_each_logged _ (fun r => [Printed (row_line r)])).
      intros [[script success] exec_time] w0. reflexivity. }
  run_print.
  rewrite count_successful_tally, tally_all.
  rewrite (flat_map_single (fun r => Printed (row_line r))).
  destruct (forallb row_success results).
  - do 2 run_print. unfold ret. rewrite !logged_logged.
    now rewrite <- ?app_assoc.
  - run_print. unfold ret. rewrite !logged_logged.
    now rewrite <- ?app_assoc.
Qed.

Lemma forallb_rows (h : Host) (scripts : list string) :
  forall n, forallb row_success (rows_from h scripts n)
            = forallb (child_succeeds h) scripts.
Proof.
  induction scripts as [| script scripts IH]; intros n; [reflexivity |].
  cbn [rows_from forallb]. now rewrite IH.
Qed.


(** The script-running part of [main] in closed form: it always returns,
    0 when every child succeeded and 1 otherwise. *)
Lemma run_scripts_eq (h : Host) (w : world) :
  run_scripts h w =
    (Ret (final_status h),
     mkWorld (trace w ++ scripts_events h (ticks w)) (10 + ticks w)).
Proof.
  unfold run_scripts, scripts_events, final_status.
  do 2 run_print.
  erewrite bind_ret_eq by apply time_time_eq.
  erewrite bind_ret_eq by apply run_loop_eq.
  erewrite bind_ret_eq by apply time_time_eq.
  rewrite summarise_eq.
  cbn [trace ticks logged app List.length example_scripts Nat.mul Nat.add].
  rewrite forallb_rows.
  unfold logged; cbn [trace ticks].
  now rewrite <- !app_assoc.
Qed.

(** [main] in closed form: the demonstrations always return, the
    performance summary may raise, and the scripts run only after it. *)
Lemma main_eq (h : Host) (lib : Library) (w : world) :
  main h lib w =
    let run := performance_run h lib (ticks w) in
    let w1 := mkWorld (trace w ++ prelude_events lib ++ snd (fst run))
                      (snd run + ticks w) in
    match fst (fst run) with
    | Ret _ => run_scripts h w1
    | Raise r => (Raise r, w1)
    end.
Proof.
  unfold main, prelude_events.
  do 3 run_print.
  erewrite bind_ret_eq by apply quick_dialect_validation_eq.
  erewrite bind_ret_eq by apply demonstrate_key_features_eq.
  rewrite !logged_logged.
  unfold bind. rewrite show_performance_summary_eq.
  cbn [logged trace ticks].
  destruct (performance_run h lib (ticks w)) as [[o evs] k]; cbn [fst snd].
  rewrite <- !app_assoc.
  destruct o as [[] | r]; reflexivity.
Qed.

(* ================================================================= *)
(** ** Lemmas on [test_simple.py] and [verify.py] *)

Lemma yields_ret {A} (P : A -> Prop) (a : A) : P a -> yields P (ret a).
Proof. intros H w. exact H. Qed.

Lemma yields_bind {A B} (Q : A -> Prop) (P : B -> Prop) (m : M A) (k : A -> M B) :
  yields Q m -> (forall a, Q a -> yields P (k a)) -> yields P (bind m k).
Proof.
  intros Hm Hk w. unfold bind. specialize (Hm w).
  destruct (m w) as [[a | [c | e]] w1]; try easy. now apply Hk.
Qed.

Lemma yields_print (l : line) : yields (fun _ => True) (print l).
Proof. now intros w. Qed.

Lemma yields_call {A} (c : lib_call) (r : Exception + A) :
  yields (fun _ => True) (call c r).
Proof. intros w. unfold call, bind, emit. now destruct r. Qed.

Lemma yields_import (module symbol : string) (r : option Exception) :
  yields (fun _ => True) (import module symbol r).
Proof. unfold import. apply yields_call. Qed.

Lemma yields_assert (b : bool) : yields (fun _ => True) (assert b).
Proof. intros w. unfold assert. now destruct b. Qed.

Lemma yields_first_item {A} (xs : list A) : yields (fun _ => True) (first_item xs).
Proof. intros w. unfold first_item. now destruct xs. Qed.

Ltac yields_step :=
  first [ apply yields_print | apply yields_call | apply yields_import
        | apply yields_assert | apply yields_first_item
        | apply yields_ret ].

Ltac yields_chain :=
  repeat (eapply yields_bind; [solve [yields_step] | intros ? _]).

Lemma parse_and_generate_yields (lib : Library) (sql : string) :
  yields (fun _ => True) (parse_and_generate lib sql).
Proof. unfold parse_and_generate. yields_chain. yields_step. Qed.

(** The [try] suite of [test_basic_functionality] returns [True] or
    raises an instance of [Exception]. *)
Lemma test_basic_body_yields (lib : Library) :
  yields (fun b => b = true) (test_basic_body lib).
Proof.
  unfold test_basic_body.
  repeat (eapply yields_bind;
          [solve [yields_step | apply parse_and_generate_yields] | intros ? _]).
  now apply yields_ret.
Qed.

Lemma try_except_Exception_eq {A} (body : M A) (handler : Exception -> M A)
    (w : world) :
  try_except body [except_Exception handler] w =
    match body w with
    | (Raise (Exc e), w1) => handler e w1
    | r => r
    end.
Proof.
  unfold try_except. destruct (body w) as [[a | [c | e]] w1]; reflexivity.
Qed.

(** [test_basic_functionality] by cases on its [try] suite. *)
Lemma test_basic_functionality_eq (lib : Library) (w : world) :
  test_basic_functionality lib w =
    match test_basic_body lib w with
    | (Raise (Exc e), w1) => (Ret false, logged w1 (failure_report e))
    | (_, w1) => (Ret true, w1)
    end.
Proof.
  unfold test_basic_functionality. rewrite try_except_Exception_eq.
  pose proof (test_basic_body_yields lib w) as H.
  destruct (test_basic_body lib w) as [[b | [c | e]] w1].
  - now subst b.
  - contradiction.
  - run_print. unfold traceback_print_exc, bind, emit, ret, logged, failure_report.
    cbn [trace ticks]. now rewrite <- app_assoc.
Qed.

(** The flag [test_basic_functionality] returns in world [w]. *)
Lemma test_basic_functionality_returns (lib : Library) (w : world) :
  exists b w1, test_basic_functionality lib w = (Ret b, w1).
Proof.
  rewrite test_basic_functionality_eq.
  destruct (test_basic_body lib w) as [[b | [c | e]] w1]; eauto.
Qed.

Lemma test_simple_py_eq (lib : Library) (w : world) (b : bool) (w1 : world) :
  test_basic_functionality lib (test_simple_start w) = (Ret b, w1) ->
  fst (test_simple_py lib w) = Raise (SystemExit (if b then 0 else 1)).
Proof.
  intros E. unfold test_simple_py.
  do 2 run_print. rewrite logged_logged.
  erewrite bind_ret_eq by exact E.
  destruct b; run_print; reflexivity.
Qed.

Lemma verify_body_yields (lib : Library) :
  yields (fun _ => True) (verify_body lib).
Proof. unfold verify_body. yields_chain. yields_step. Qed.

(** [verify.py] by cases on its [try] suite: the run always reaches the
    end of the module. *)
Lemma verify_py_eq (lib : Library) (w : world) :
  verify_py lib w =
    match verify_body lib w with
    | (Raise (Exc e), w1) => (Ret tt, logged w1 (error_report e))
    | (_, w1) => (Ret tt, w1)
    end.
Proof.
  unfold verify_py. rewrite try_except_Exception_eq.
  pose proof (verify_body_yields lib w) as H.
  destruct (verify_body lib w) as [[[] | [c | e]] w1].
  - reflexivity.
  - contradiction.
  - run_print. unfold traceback_print_exc, emit, logged, error_report; simpl.
    now rewrite <- app_assoc.
Qed.

(* ================================================================= *)
(** ** Properties of [run_example_script] *)

Lemma launches_run_example_script (h : Host) (script : string) (w : world) :
  launches (trace (snd (run_example_script h script w))) =
    launches (trace w) ++ [([sys_executable h; script], script_dir h, 30%Z)].
Proof. rewrite run_example_script_eq. cbn [snd trace]. now rewrite launches_app. Qed.

(** C9: [run_example_script] is total at its interface.  For every host
    and script name it returns a triple and raises nothing; the flag is
    [True] exactly when the child completed with return code 0, so a
    non-zero return code, a timeout and any other exception of
    [subprocess.run] all end in a failure triple. *)
Theorem run_example_script_never_raises :
  forall (h : Host) (script : string) (w : world),
  exists (success : bool) (output : string) (execution_time : float) (w1 : world),
    run_example_script h script w = (Ret (success, output, execution_time), w1)
    /\ (success = true <->
        exists p, subprocess_run h [sys_executable h; script] (script_dir h) 30
                  = inr p /\ returncode p = 0%Z)
    /\ (forall e, subprocess_run h [sys_executable h; script] (script_dir h) 30
                  = inl e -> success = false).
Proof.
  intros h script w. rewrite run_example_script_eq.
  unfold child_report, child_of.
  destruct (subprocess_run h _ _ _) as [e | p] eqn:Hrun.
  - assert (Hno : ~ exists q : CompletedProcess,
                      @inl Exception CompletedProcess e = inr q /\ returncode q = 0%Z)
      by (intros [q [Hq _]]; discriminate).
    destruct (isinstance e TimeoutExpired); do 4 eexists;
      (split; [reflexivity | split; [split; [discriminate | tauto] | reflexivity]]).
  - destruct (Z.eqb_spec (returncode p) 0) as [Hrc | Hrc]; do 4 eexists;
      (split; [reflexivity | split; [split | discriminate]]).
    + intros _. now exists p.
    + reflexivity.
    + discriminate.
    + intros [q [Hq Hq0]]. injection Hq as <-. contradiction.
Qed.

(** C6: the launch carries the fixed timeout of 30 seconds, and when
    [subprocess.run] reports that the child outlived it, by raising
    [TimeoutExpired], [run_example_script] raises nothing and returns the
    failure triple whose output is "Script timed out after 30 seconds". *)
Theorem timeout_gives_failure_triple :
  forall (h : Host) (script : string) (w : world) (e : Exception),
    subprocess_run h [sys_executable h; script] (script_dir h) 30 = inl e ->
    isinstance e TimeoutExpired = true ->
    exists (execution_time : float) (w1 : world),
      run_example_script h script w
        = (Ret (false, "Script timed out after 30 seconds", execution_time), w1)
      /\ launches (trace w1)
         = launches (trace w) ++ [([sys_executable h; script], script_dir h, 30%Z)].
Proof.
  intros h script w e Hrun Hcls.
  pose proof (launches_run_example_script h script w) as Hl.
  rewrite run_example_script_eq in *. unfold child_report, child_of in *.
  rewrite Hrun, Hcls in *. eauto.
Qed.

Lemma timeout_gives_failure_triple_witness :
  exists (execution_time : float) (w1 : world),
    run_example_script Sample.stalling_host "basic_usage.py" boot
      = (Ret (false, "Script timed out after 30 seconds", execution_time), w1)
    /\ launches (trace w1)
       = launches (trace boot) ++ [(["python3"; "basic_usage.py"], "examples", 30%Z)].
Proof.
  exact (timeout_gives_failure_triple Sample.stalling_host "basic_usage.py" boot
           (mkException TimeoutExpired "Command timed out after 30 seconds")
           eq_refl eq_refl).
Defined.

(* ================================================================= *)
(** ** Properties of the script-running part of [main] *)

Lemma launches_script_events_from (h : Host) (scripts : list string) :
  forall n, launches (script_events_from h scripts n)
            = map (fun s => ([sys_executable h; s], script_dir h, 30%Z)) scripts.
Proof.
  induction scripts as [| script scripts IH]; intros n; [reflexivity |].
  cbn [script_events_from map]. rewrite launches_app, IH.
  unfold script_events. rewrite launches_app.
  replace (launches (map Printed (script_lines h script n))) with
    (@nil (list string * string * Z)).
  - reflexivity.
  - unfold script_lines. now destruct (child_succeeds h script).
Qed.

Lemma launches_map_printed (ls : list line) : launches (map Printed ls) = [].
Proof. induction ls as [| l ls IH]; [reflexivity | exact IH]. Qed.

Lemma launches_summary_events (results : list result_row) (t : float) :
  launches (summary_events results t) = [].
Proof.
  unfold summary_events. rewrite !launches_app.
  rewrite <- (map_map row_line Printed), launches_map_printed.
  now destruct (forallb row_success results).
Qed.

Lemma console_map_printed (ls : list line) : console (map Printed ls) = ls.
Proof. induction ls as [| l ls IH]; [reflexivity | cbn; now f_equal]. Qed.

(** C5, as stated, fails on what [main] shows: the captured output of a
    successful child is printed nowhere, and of a failed child's output
    only the first 200 characters are. *)
Lemma child_output_not_surfaced :
  (option_map fst
     (returned (fst (run_example_script
                       (Sample.completing_host 0 "hello from the child" "")
                       "basic_usage.py" boot)))
     = Some (true, "hello from the child")
   /\ fst (main (Sample.completing_host 0 "hello from the child" "")
                Sample.accepting_library boot) = Ret 0%Z
   /\ shown "hello from the child"
        (console (trace (snd (main (Sample.completing_host 0 "hello from the child" "")
                                   Sample.accepting_library boot)))) = false)
  /\
  (option_map fst
     (returned (fst (run_example_script
                       (Sample.completing_host 1 "" (str_mul "x" 250))
                       "basic_usage.py" boot)))
     = Some (false, str_mul "x" 250)
   /\ shown (str_mul "x" 250)
        (console (trace (snd (main (Sample.completing_host 1 "" (str_mul "x" 250))
                                   Sample.accepting_library boot)))) = false
   /\ shown (str_mul "x" 200)
        (console (trace (snd (main (Sample.completing_host 1 "" (str_mul "x" 250))
                                   Sample.accepting_library boot)))) = true).
Proof. vm_compute. repeat split; reflexivity. Qed.

(** C5, amended: [main] launches each of the four listed example scripts
    as a subprocess, in order, and collects how it ended; for a child
    that completes, [run_example_script] reports success exactly when
    the return code is 0 and returns the whole captured stdout on
    success and the whole captured stderr on failure; [main] prints
    nothing of the output of a successful child and, of the output of a
    failed one, the first 200 characters followed by "...". *)
Theorem child_output_collected_and_reported :
  (forall (h : Host) (w : world),
      exists w1,
        run_scripts h w = (Ret (final_status h), w1)
        /\ launches (trace w1)
           = launches (trace w)
             ++ map (fun s => ([sys_executable h; s], script_dir h, 30%Z))
                    example_scripts)
  /\
  (forall (h : Host) (script : string) (w : world),
      match subprocess_run h [sys_executable h; script] (script_dir h) 30 with
      | inr p =>
          exists t w1,
            run_example_script h script w
              = (Ret (Z.eqb (returncode p) 0,
                      if Z.eqb (returncode p) 0 then stdout p else stderr p,
                      t), w1)
      | inl _ => True
      end)
  /\
  (forall (h : Host) (script : string) (results : list result_row) (w : world),
      exists success output t w1 w2,
        run_example_script h script
            (logged w [Printed [Str "Running "; Str script; Str "..."]])
          = (Ret (success, output, t), w1)
        /\ run_one h script results w = (Ret (results ++ [(script, success, t)]), w2)
        /\ console (trace w2)
           = console (trace w)
             ++ [[Str "Running "; Str script; Str "..."]]
             ++ (if success
                 then [[Str "  ✅ Completed successfully in "; Fixed 2 t; Str "s"]]
                 else [[Str "  ❌ Failed after "; Fixed 2 t; Str "s"];
                       [Str "  Error: "; Str (prefix_slice 200 output); Str "..."]])
             ++ [[]]).
Proof.
  split; [| split].
  - intros h w. rewrite run_scripts_eq. eexists; split; [reflexivity |].
    cbn [trace]. unfold scripts_events.
    rewrite !launches_app, launches_script_events_from, launches_summary_events.
    cbn [launches flat_map app]. now rewrite app_nil_r.
  - intros h script w. rewrite run_example_script_eq.
    unfold child_report, child_of.
    destruct (subprocess_run h _ _ _) as [e | p]; [exact I |].
    destruct (returncode p =? 0)%Z; eauto.
  - intros h script results w.
    rewrite run_one_eq, run_example_script_eq.
    unfold script_row, script_events, script_lines, child_succeeds.
    destruct (child_report (child_of h script)) as [success output].
    cbn [fst snd logged ticks trace].
    do 5 eexists. split; [reflexivity |]. split; [reflexivity |].
    cbn [trace]. rewrite console_app. f_equal.
    destruct success; reflexivity.
Qed.

(* ================================================================= *)
(** ** Exit statuses *)

Lemma performance_run_raises (h : Host) (lib : Library) (n : nat) (r : raised) :
  fst (fst (performance_run h lib n)) = Raise r -> exists e, r = Exc e.
Proof.
  unfold performance_run, complexity_run.
  destruct (parse_one lib test_sql) as [e | tree]; cbn [fst snd].
  - intros [= <-]. eauto.
  - destruct (find_all lib tree "Table") as [e1 | tables]; cbn [fst];
      [intros [= <-]; eauto |].
    destruct (find_all lib tree "Func") as [e2 | functions]; cbn [fst];
      [intros [= <-]; eauto |].
    destruct (find_all lib tree "Window") as [e3 | windows]; cbn [fst];
      [intros [= <-]; eauto | discriminate].
Qed.

(** What [main] comes to: the status read off the children, or an
    exception of the performance summary. *)
Lemma main_outcome (h : Host) (lib : Library) (w : world) :
  match fst (main h lib w) with
  | Ret status => status = final_status h
  | Raise r => exists e, r = Exc e
  end.
Proof.
  rewrite main_eq. cbv zeta.
  pose proof (performance_run_raises h lib (ticks w)) as Hraise.
  destruct (fst (fst (performance_run h lib (ticks w)))) as [[] | r].
  - now rewrite run_scripts_eq.
  - cbn [fst]. now apply Hraise.
Qed.

Lemma final_status_cases (h : Host) :
  (final_status h = 0%Z /\ forallb (child_succeeds h) example_scripts = true)
  \/ (final_status h = 1%Z /\ forallb (child_succeeds h) example_scripts = false).
Proof.
  unfold final_status. destruct (forallb _ _); [left | right]; now split.
Qed.

(** The exit status of [run_all_examples.py]: 1 after a failed import or
    an exception of [main], else what [main] returned. *)
Lemma run_all_examples_py_status (h : Host) (lib : Library) (w : world) :
  exit_status (fst (run_all_examples_py h lib w)) = 1%Z
  \/ (exit_status (fst (run_all_examples_py h lib w)) = final_status h
      /\ import_sqlglot lib = None /\ import_vertica lib = None
      /\ fst (fst (performance_run h lib (ticks w))) = Ret tt).
Proof.
  unfold run_all_examples_py, import.
  destruct (import_sqlglot lib) as [e1 |].
  { left. erewrite bind_raise_eq by apply call_fail_eq. reflexivity. }
  erewrite bind_ret_eq by apply call_ok_eq.
  destruct (import_vertica lib) as [e2 |].
  { left. erewrite bind_raise_eq by apply call_fail_eq. reflexivity. }
  erewrite bind_ret_eq by apply call_ok_eq.
  unfold bind. rewrite main_eq. cbv zeta. cbn [logged ticks].
  pose proof (performance_run_raises h lib (ticks w)) as Hraise.
  destruct (fst (fst (performance_run h lib (ticks w)))) as [[] | r].
  - right. rewrite run_scripts_eq. cbn. auto.
  - left. destruct (Hraise r eq_refl) as [e ->]. reflexivity.
Qed.

(** C1, as stated, fails for [verify.py]: when its parse step raises,
    the exception is caught and the process exits with status 0. *)
Lemma verify_exits_zero_after_parse_error :
  Vertica_parse Sample.rejecting_library "SELECT 1" = inl Sample.invalid
  /\ fst (verify_body Sample.rejecting_library boot) = Raise (Exc Sample.invalid)
  /\ exit_status (fst (verify_py Sample.rejecting_library boot)) = 0%Z.
Proof. repeat split. Qed.

(** [run_all_examples.py] by cases on its imports and on [main]. *)
Lemma run_all_examples_py_eq (h : Host) (lib : Library) (w : world) :
  run_all_examples_py h lib w =
    match import_sqlglot lib with
    | Some e =>
        (Raise (Exc e),
         logged w [Called (CallImport "sqlglot" "parse_one, transpile, exp")])
    | None =>
        match import_vertica lib with
        | Some e => (Raise (Exc e), imported w)
        | None =>
            match main h lib (imported w) with
            | (Ret status, w1) => (Raise (SystemExit status), w1)
            | (Raise r, w1) => (Raise r, w1)
            end
        end
    end.
Proof.
  unfold run_all_examples_py, import, imported.
  destruct (import_sqlglot lib) as [e1 |].
  { erewrite bind_raise_eq by apply call_fail_eq. reflexivity. }
  erewrite bind_ret_eq by apply call_ok_eq.
  destruct (import_vertica lib) as [e2 |].
  { erewrite bind_raise_eq by apply call_fail_eq. now rewrite logged_logged. }
  erewrite bind_ret_eq by apply call_ok_eq.
  rewrite logged_logged. cbn [app].
  unfold bind, sys_exit, raise.
  destruct (main h lib _) as [[status | r] w1]; reflexivity.
Qed.

(** When the performance summary returns, so does [main], with the
    status read off the children. *)
Lemma main_returns_after_summary (h : Host) (lib : Library) (w w2 : world) :
  show_performance_summary h lib (logged w (prelude_events lib)) = (Ret tt, w2) ->
  exists w1, main h lib w = (Ret (final_status h), w1).
Proof.
  intros Hsum. rewrite show_performance_summary_eq in Hsum.
  cbn [logged ticks] in Hsum.
  rewrite main_eq. cbv zeta.
  destruct (fst (fst (performance_run h lib (ticks w)))) as [[] | r];
    [| discriminate].
  rewrite run_scripts_eq. eauto.
Qed.

(** How the [try] suite of [verify.py] ends when one of its three steps
    raises. *)
Lemma verify_body_raises (lib : Library) (w : world) (e : Exception) :
  import_vertica lib = Some e
  \/ (import_vertica lib = None /\ Vertica_parse lib "SELECT 1" = inl e)
  \/ (import_vertica lib = None
      /\ exists tree rest,
           Vertica_parse lib "SELECT 1" = inr (tree :: rest)
           /\ Vertica_generate lib tree = inl e) ->
  exists w0, verify_body lib w = (Raise (Exc e), w0).
Proof.
  unfold verify_body, import.
  intros [Himp | [[Himp Hparse] | [Himp [tree [rest [Hparse Hgen]]]]]];
    rewrite Himp.
  - erewrite bind_raise_eq by apply call_fail_eq. eauto.
  - erewrite bind_ret_eq by apply call_ok_eq. run_print. rewrite Hparse.
    erewrite bind_raise_eq by apply call_fail_eq. eauto.
  - erewrite bind_ret_eq by apply call_ok_eq. run_print. rewrite Hparse.
    erewrite bind_ret_eq by apply call_ok_eq. run_print.
    erewrite bind_ret_eq by reflexivity. rewrite Hgen.
    erewrite bind_raise_eq by apply call_fail_eq. eauto.
Qed.

(** C1, amended: [main] of [run_all_examples.py] returns 0 exactly when
    every child script succeeded and 1 otherwise, and the process exits
    with the status [main] returned, or with 1 when an import or the
    performance summary raised; [test_simple.py] exits with 0 exactly
    when [test_basic_functionality] returns [True] and with 1 otherwise;
    and [verify.py] exits with 0 whether or not its import, parse or
    generate step raises: the exception is caught and only printed, as
    an ERROR line and the traceback. *)
Theorem exit_status_of_scripts :
  (forall (h : Host) (lib : Library) (w : world),
      match fst (main h lib w) with
      | Ret status =>
          (status = 0%Z /\ forallb (child_succeeds h) example_scripts = true)
          \/ (status = 1%Z /\ forallb (child_succeeds h) example_scripts = false)
      | Raise r => exists e, r = Exc e
      end)
  /\
  (forall (h : Host) (lib : Library) (w : world),
      exit_status (fst (run_all_examples_py h lib w))
      = match import_sqlglot lib, import_vertica lib with
        | None, None =>
            match fst (main h lib (imported w)) with
            | Ret status => status
            | Raise _ => 1%Z
            end
        | _, _ => 1%Z
        end)
  /\
  (forall (h : Host) (lib : Library) (w w2 : world),
      import_sqlglot lib = None ->
      import_vertica lib = None ->
      show_performance_summary h lib (logged (imported w) (prelude_events lib))
        = (Ret tt, w2) ->
      exists w1,
        main h lib (imported w)
          = (Ret (if forallb (child_succeeds h) example_scripts then 0%Z else 1%Z),
             w1)
        /\ run_all_examples_py h lib w
           = (Raise (SystemExit
                       (if forallb (child_succeeds h) example_scripts
                        then 0%Z else 1%Z)), w1)
        /\ exit_status (fst (run_all_examples_py h lib w))
           = (if forallb (child_succeeds h) example_scripts then 0%Z else 1%Z))
  /\
  (forall (lib : Library) (w : world),
      exists b w1,
        test_basic_functionality lib (test_simple_start w) = (Ret b, w1)
        /\ fst (test_simple_py lib w) = Raise (SystemExit (if b then 0 else 1))
        /\ exit_status (fst (test_simple_py lib w)) = (if b then 0%Z else 1%Z))
  /\
  (forall (lib : Library) (w : world),
      match verify_body lib w with
      | (Ret _, w0) => verify_py lib w = (Ret tt, w0)
      | (Raise (Exc e), w0) =>
          verify_py lib w
          = (Ret tt,
             logged w0 [Printed [Str "ERROR: "; Str (exc_str e)];
                        TracebackPrinted e])
      | (Raise (SystemExit _), _) => False
      end
      /\ exit_status (fst (verify_py lib w)) = 0%Z)
  /\
  (forall (lib : Library) (w : world) (e : Exception),
      import_vertica lib = Some e
      \/ (import_vertica lib = None /\ Vertica_parse lib "SELECT 1" = inl e)
      \/ (import_vertica lib = None
          /\ exists tree rest,
               Vertica_parse lib "SELECT 1" = inr (tree :: rest)
               /\ Vertica_generate lib tree = inl e) ->
      exists w0,
        verify_body lib w = (Raise (Exc e), w0)
        /\ verify_py lib w
           = (Ret tt,
              logged w0 [Printed [Str "ERROR: "; Str (exc_str e)];
                         TracebackPrinted e])
        /\ exit_status (fst (verify_py lib w)) = 0%Z).
Proof.
  split; [| split; [| split; [| split; [| split]]]].
  - intros h lib w. pose proof (main_outcome h lib w) as H.
    destruct (fst (main h lib w)) as [status | r]; [| exact H].
    subst status. apply final_status_cases.
  - intros h lib w. rewrite run_all_examples_py_eq.
    destruct (import_sqlglot lib) as [e1 |]; [now destruct (import_vertica lib) |].
    destruct (import_vertica lib) as [e2 |]; [reflexivity |].
    pose proof (main_outcome h lib (imported w)) as H.
    destruct (main h lib (imported w)) as [[status | r] w1]; cbn [fst] in *;
      [reflexivity |].
    now destruct H as [e ->].
  - intros h lib w w2 H1 H2 Hsum.
    destruct (main_returns_after_summary h lib (imported w) w2 Hsum) as [w1 Hmain].
    exists w1. rewrite run_all_examples_py_eq, H1, H2, Hmain.
    unfold final_status. repeat split.
  - intros lib w.
    destruct (test_basic_functionality_returns lib (test_simple_start w))
      as [b [w1 E]].
    exists b, w1. pose proof (test_simple_py_eq lib w b w1 E) as Hexit.
    repeat split; [exact E | exact Hexit |].
    rewrite Hexit. now destruct b.
  - intros lib w. rewrite verify_py_eq.
    pose proof (verify_body_yields lib w) as H.
    destruct (verify_body lib w) as [[[] | [c | e]] w0]; auto.
  - intros lib w e Hstep.
    destruct (verify_body_raises lib w e Hstep) as [w0 Hbody].
    exists w0. rewrite verify_py_eq, Hbody. repeat split.
Qed.

Lemma exit_status_of_scripts_witness :
  (exists w1,
      main (Sample.completing_host 0 "" "") Sample.accepting_library (imported boot)
        = (Ret 0%Z, w1)
      /\ run_all_examples_py (Sample.completing_host 0 "" "")
                             Sample.accepting_library boot
         = (Raise (SystemExit 0), w1)
      /\ exit_status (fst (run_all_examples_py (Sample.completing_host 0 "" "")
                                               Sample.accepting_library boot))
         = 0%Z)
  /\
  (exists w0,
      verify_body Sample.rejecting_library boot = (Raise (Exc Sample.invalid), w0)
      /\ verify_py Sample.rejecting_library boot
         = (Ret tt,
            logged w0 [Printed [Str "ERROR: "; Str "Invalid expression"];
                       TracebackPrinted Sample.invalid])
      /\ exit_status (fst (verify_py Sample.rejecting_library boot)) = 0%Z).
Proof.
  split.
  - refine (proj1 (proj2 (proj2 exit_status_of_scripts))
              (Sample.completing_host 0 "" "") Sample.accepting_library boot
              (snd (show_performance_summary
                      (Sample.completing_host 0 "" "") Sample.accepting_library
                      (logged (imported boot)
                              (prelude_events Sample.accepting_library))))
              eq_refl eq_refl _).
    vm_compute. reflexivity.
  - refine (proj2 (proj2 (proj2 (proj2 (proj2 exit_status_of_scripts))))
              Sample.rejecting_library boot Sample.invalid _).
    right. left. split; reflexivity.
Defined.

(* ================================================================= *)
(** ** Exceptions of the library *)



(* ================================================================= *)
(** ** Counters *)

Lemma in_trace_app (e : event) (t u : list event) : In e u -> In e (t ++ u).
Proof. intros H. apply in_or_app. now right. Qed.



(* ================================================================= *)
(** ** The benchmark *)

(** C8: when the test query parses, the benchmark of
    [show_performance_summary] reads the clock, calls [parse_one] on the
    test query exactly 100 times and reads the clock again; the elapsed
    time is the second reading minus the first, and the reported
    per-iteration average is that time divided by 100 and multiplied by
    1000. *)
Theorem benchmark_is_loop_and_subtract :
  forall (h : Host) (lib : Library) (tree : ast lib) (w : world),
    parse_one lib test_sql = inr tree ->
    exists parse_time avg_parse_time w1 w2 outcome,
      parse_time = PrimFloat.sub (clock h (S (ticks w))) (clock h (ticks w))
      /\ avg_parse_time
         = PrimFloat.mul (PrimFloat.div parse_time (float_of_int 100))
                         (float_of_int 1000)
      /\ benchmark h lib w = (Ret (parse_time, avg_parse_time), w1)
      /\ trace w1
         = trace w
           ++ [ClockRead (clock h (ticks w))]
           ++ repeat (Called (CallParseOne test_sql)) 100
           ++ [ClockRead (clock h (S (ticks w)))]
      /\ show_performance_summary h lib w = (outcome, w2)
      /\ In (Printed [Str "  Complex query parsing: "; Fixed 2 avg_parse_time;
                      Str "ms average ("; Int 100; Str " iterations)"])
            (trace w2)
      /\ In (Printed [Str "  Total time: "; Fixed 3 parse_time; Str "s"]) (trace w2).
Proof.
  intros h lib tree w Hparse.
  rewrite (benchmark_ok_eq h lib tree w Hparse), show_performance_summary_eq.
  unfold performance_run. rewrite Hparse. cbn [fst snd].
  do 5 eexists.
  split; [reflexivity |]. split; [reflexivity |]. split; [reflexivity |].
  split; [reflexivity |]. split; [reflexivity |].
  cbn [trace].
  split; do 3 apply in_trace_app; apply in_or_app; left; cbn; tauto.
Qed.

Lemma benchmark_is_loop_and_subtract_witness :
  exists parse_time avg_parse_time w1 w2 outcome,
    parse_time = PrimFloat.sub (Sample.steady_clock 1) (Sample.steady_clock 0)
    /\ avg_parse_time
       = PrimFloat.mul (PrimFloat.div parse_time (float_of_int 100))
                       (float_of_int 1000)
    /\ benchmark (Sample.completing_host 0 "" "") Sample.accepting_library boot
       = (Ret (parse_time, avg_parse_time), w1)
    /\ trace w1
       = trace boot
         ++ [ClockRead (Sample.steady_clock 0)]
         ++ repeat (Called (CallParseOne test_sql)) 100
         ++ [ClockRead (Sample.steady_clock 1)]
    /\ show_performance_summary (Sample.completing_host 0 "" "")
                                Sample.accepting_library boot = (outcome, w2)
    /\ In (Printed [Str "  Complex query parsing: "; Fixed 2 avg_parse_time;
                    Str "ms average ("; Int 100; Str " iterations)"])
          (trace w2)
    /\ In (Printed [Str "  Total time: "; Fixed 3 parse_time; Str "s"]) (trace w2).
Proof.
  exact (benchmark_is_loop_and_subtract (Sample.completing_host 0 "" "")
           Sample.accepting_library test_sql boot eq_refl).
Defined.

(* ================================================================= *)
(** ** The scripts over the modelled pipeline *)

Lemma contains_prefix (needle rest : string) :
  contains needle (needle ++ rest) = true.
Proof.
  assert (H : String.prefix needle (needle ++ rest) = true).
  { induction needle as [| c needle IH]; cbn.
    - now destruct rest.
    - destruct (ascii_dec c c) as [_ | Hne]; [exact IH | contradiction]. }
  assert (U : forall n hay, contains n hay =
                if String.prefix n hay then true
                else match hay with
                     | EmptyString => false
                     | String _ r => contains n r
                     end)
    by (intros n hay; destruct hay; reflexivity).
  now rewrite U, H.
Qed.

(** The generator renders a call of a function the dialect does not
    rename with the function's name in front. *)
Lemma generated_call_keeps_name (d : SqlModel.dialect) (name : string)
    (args : list SqlModel.expr) :
  SqlModel.render_name d name = name ->
  contains name (SqlModel.generate_expr d (SqlModel.Func name args)) = true.
Proof.
  intros Hname. cbn [SqlModel.generate_expr]. rewrite Hname.
  apply contains_prefix.
Qed.

(** C3: over the modelled pipeline, generating the parse of
    "SELECT * FROM table1" gives back that text, so the round-trip
    assertion of [test_basic_functionality] passes and the line after it
    is printed. *)
Theorem select_star_round_trip :
  exists tree rest,
    Vertica_parse SqlModel.library "SELECT * FROM table1" = inr (tree :: rest)
    /\ Vertica_generate SqlModel.library tree = inr "SELECT * FROM table1"
    /\ In (Printed [Str "✓ Basic generation works"])
          (trace (snd (test_basic_functionality SqlModel.library boot))).
Proof.
  do 2 eexists. split; [vm_compute; reflexivity |].
  split; [vm_compute; reflexivity |].
  vm_compute. tauto.
Qed.

(** C7: over the modelled pipeline, parsing
    "SELECT DATEADD(DAY, 1, CURRENT_DATE)" and generating SQL from the
    parse gives text that contains "DATEADD", so the assertion of
    [test_basic_functionality] passes and the line after it is
    printed. *)
Theorem dateadd_name_preserved :
  exists tree rest generated,
    Vertica_parse SqlModel.library "SELECT DATEADD(DAY, 1, CURRENT_DATE)"
      = inr (tree :: rest)
    /\ Vertica_generate SqlModel.library tree = inr generated
    /\ contains "DATEADD" generated = true
    /\ In (Printed [Str "✓ Date functions work"])
          (trace (snd (test_basic_functionality SqlModel.library boot))).
Proof.
  do 3 eexists. split; [vm_compute; reflexivity |].
  split; [vm_compute; reflexivity |].
  split; [vm_compute; reflexivity |].
  vm_compute. tauto.
Qed.

(** C4: over the modelled pipeline, [parse_one] raises for each of the
    three unsupported constructs, and [demonstrate_key_features] prints
    the "Correctly rejected" line for each of them and no "Should have
    failed but didn't" line. *)
Theorem unsupported_constructs_rejected :
  Forall (fun uc =>
            exists e,
              parse_one SqlModel.library (snd uc) = inl e
              /\ reject_line SqlModel.library uc
                 = [Str "   ✅ "; Str (fst uc); Str ": Correctly rejected - ";
                    Str (class_name (exc_type e))])
         unsupported_cases
  /\
  (forall w : world,
      exists w1,
        demonstrate_key_features SqlModel.library w = (Ret tt, w1)
        /\ Forall (fun uc => In (Printed (reject_line SqlModel.library uc)) (trace w1))
                  unsupported_cases)
  /\
  shown "Should have failed"
        (console (trace (snd (demonstrate_key_features SqlModel.library boot))))
    = false
  /\
  map (reject_line SqlModel.library) unsupported_cases
    = [ [Str "   ✅ "; Str "Dollar-quoted strings"; Str ": Correctly rejected - ";
         Str "TokenError"];
        [Str "   ✅ "; Str "LATERAL joins"; Str ": Correctly rejected - ";
         Str "ParseError"];
        [Str "   ✅ "; Str "COPY FROM LOCAL"; Str ": Correctly rejected - ";
         Str "ParseError"] ].
Proof.
  split; [| split; [| split]].
  - repeat constructor; eexists; (split; [vm_compute; reflexivity | reflexivity]).
  - intros w. rewrite demonstrate_key_features_eq. eexists. split; [reflexivity |].
    unfold logged; cbn [trace]. unfold feature_events.
    repeat constructor; do 4 apply in_trace_app; apply in_or_app; left;
      cbn; tauto.
  - vm_compute. reflexivity.
  - vm_compute. reflexivity.
Qed.

(* ================================================================= *)
(** ** Further properties of [run_all_examples.py] *)

Lemma readings_app (t u : list event) : readings (t ++ u) = readings t ++ readings u.
Proof. unfold readings. apply flat_map_app. Qed.

(** X1: whatever [subprocess.run] does, [run_example_script] leaves
    exactly three events behind, in this order: a clock reading, the
    launch of one process, with the interpreter and the script name as
    its command line, the script directory as working directory and the
    30 second timeout, and a second clock reading.  It prints nothing,
    and the execution time it returns is the second reading minus the
    first. *)
Theorem run_example_script_measures_one_launch :
  forall (h : Host) (script : string) (w : world),
  exists report t0 t1 w1,
    run_example_script h script w = (Ret (report, PrimFloat.sub t1 t0), w1)
    /\ trace w1
       = trace w
         ++ [ClockRead t0;
             Spawned [sys_executable h; script] (script_dir h) 30;
             ClockRead t1]
    /\ launches (trace w1)
       = launches (trace w) ++ [([sys_executable h; script], script_dir h, 30%Z)]
    /\ readings (trace w1) = readings (trace w) ++ [t0; t1]
    /\ t0 = clock h (ticks w) /\ t1 = clock h (S (ticks w))
    /\ ticks w1 = S (S (ticks w))
    /\ console (trace w1) = console (trace w).
Proof.
  intros h script w. rewrite run_example_script_eq.
  do 4 eexists. split; [reflexivity |]. cbn [trace ticks].
  split; [reflexivity |].
  rewrite launches_app, readings_app, console_app.
  repeat split. cbn. now rewrite app_nil_r.
Qed.

(** X2: the [except] clauses are tried in order.  An exception of
    [subprocess.run] that is not a [TimeoutExpired] (the interpreter
    cannot be started, the output cannot be decoded) gives the failure
    triple whose output is "Error running script: " followed by the text
    of the exception, not the timeout message. *)
Theorem launch_error_gives_failure_triple :
  forall (h : Host) (script : string) (w : world) (e : Exception),
    subprocess_run h [sys_executable h; script] (script_dir h) 30 = inl e ->
    isinstance e TimeoutExpired = false ->
    exists t w1,
      run_example_script h script w
        = (Ret (false, ("Error running script: " ++ exc_str e)%string, t), w1).
Proof.
  intros h script w e Hrun Hcls. rewrite run_example_script_eq.
  unfold child_report, child_of. rewrite Hrun, Hcls. eauto.
Qed.

Lemma launch_error_gives_failure_triple_witness :
  exists t w1,
    run_example_script Sample.broken_host "basic_usage.py" boot
      = (Ret (false,
              "Error running script: [Errno 2] No such file or directory",
              t), w1).
Proof.
  exact (launch_error_gives_failure_triple Sample.broken_host "basic_usage.py" boot
           (mkException OSError "[Errno 2] No such file or directory")
           eq_refl eq_refl).
Defined.

(** X3: the benchmark of [show_performance_summary] is not guarded.
    When [parse_one] rejects the test query, the first call of the timed
    loop raises: [main] raises that exception after the two
    demonstrations, no example script is launched, and
    [run_all_examples.py] exits with status 1. *)
Theorem benchmark_failure_aborts_main :
  forall (h : Host) (lib : Library) (w : world) (e : Exception),
    parse_one lib test_sql = inl e ->
    exists w1,
      main h lib w = (Raise (Exc e), w1)
      /\ launches (trace w1) = launches (trace w)
      /\ trace w1
         = trace w ++ prelude_events lib
           ++ [Printed [Str "⚡ PERFORMANCE SUMMARY"];
               Printed [Str (str_mul "=" 60)];
               ClockRead (clock h (ticks w));
               Called (CallParseOne test_sql)]
      /\ exit_status (fst (run_all_examples_py h lib w)) = 1%Z.
Proof.
  intros h lib w e Hparse.
  assert (Hrun : performance_run h lib (ticks w)
                 = (Raise (Exc e),
                    [Printed [Str "⚡ PERFORMANCE SUMMARY"];
                     Printed [Str (str_mul "=" 60)];
                     ClockRead (clock h (ticks w));
                     Called (CallParseOne test_sql)], 1)).
  { unfold performance_run. now rewrite Hparse. }
  eexists. split; [| split; [| split]].
  - rewrite main_eq. cbv zeta. rewrite Hrun. cbn [fst snd]. reflexivity.
  - cbn [trace]. rewrite !launches_app.
    assert (Hq : launches (prelude_events lib) = []).
    { unfold prelude_events, validation_events, feature_events.
      rewrite !launches_app.
      assert (H1 : launches (flat_map (case_events lib) test_cases) = []).
      { induction test_cases as [| tc cases IH]; [reflexivity |].
        change (flat_map (case_events lib) (tc :: cases))
          with (case_events lib tc ++ flat_map (case_events lib) cases).
        rewrite launches_app, IH. unfold case_events.
        now destruct (parse_one lib (snd tc)). }
      rewrite H1. reflexivity. }
    rewrite Hq. cbn. now rewrite app_nil_r.
  - reflexivity.
  - destruct (run_all_examples_py_status h lib w) as [H | [_ [_ [_ H]]]];
      [exact H |].
    rewrite Hrun in H. discriminate.
Qed.

Lemma benchmark_failure_aborts_main_witness :
  exists w1,
    main (Sample.completing_host 0 "" "") Sample.rejecting_library boot
      = (Raise (Exc Sample.invalid), w1)
    /\ launches (trace w1) = launches (trace boot)
    /\ trace w1
       = trace boot ++ prelude_events Sample.rejecting_library
         ++ [Printed [Str "⚡ PERFORMANCE SUMMARY"];
             Printed [Str (str_mul "=" 60)];
             ClockRead (Sample.steady_clock 0);
             Called (CallParseOne test_sql)]
    /\ exit_status (fst (run_all_examples_py (Sample.completing_host 0 "" "")
                                             Sample.rejecting_library boot)) = 1%Z.
Proof.
  exact (benchmark_failure_aborts_main (Sample.completing_host 0 "" "")
           Sample.rejecting_library boot Sample.invalid eq_refl).
Defined.

(** X4: the imports of [run_all_examples.py] are not guarded.  When the
    dialect module cannot be imported the exception is uncaught: the
    process exits with status 1 having printed nothing and launched
    nothing. *)
Theorem failed_import_exits_one :
  forall (h : Host) (lib : Library) (w : world) (e : Exception),
    import_sqlglot lib = None ->
    import_vertica lib = Some e ->
    exists w1,
      run_all_examples_py h lib w = (Raise (Exc e), w1)
      /\ exit_status (fst (run_all_examples_py h lib w)) = 1%Z
      /\ console (trace w1) = console (trace w)
      /\ launches (trace w1) = launches (trace w).
Proof.
  intros h lib w e H1 H2. unfold run_all_examples_py, import. rewrite H1, H2.
  erewrite bind_ret_eq by apply call_ok_eq.
  erewrite bind_raise_eq by apply call_fail_eq.
  eexists. split; [reflexivity |]. split; [reflexivity |].
  unfold logged; cbn [trace].
  rewrite !console_app, !launches_app. cbn. now rewrite !app_nil_r.
Qed.

Lemma failed_import_exits_one_witness :
  exists w1,
    run_all_examples_py (Sample.completing_host 0 "" "") Sample.missing_library boot
      = (Raise (Exc (mkException ImportError "No module named 'sqlglot_vertica'")), w1)
    /\ exit_status (fst (run_all_examples_py (Sample.completing_host 0 "" "")
                                             Sample.missing_library boot)) = 1%Z
    /\ console (trace w1) = console (trace boot)
    /\ launches (trace w1) = launches (trace boot).
Proof.
  exact (failed_import_exits_one (Sample.completing_host 0 "" "")
           Sample.missing_library boot
           (mkException ImportError "No module named 'sqlglot_vertica'")
           eq_refl eq_refl).
Defined.

Lemma calls_single_events {A} (ev : A -> list event) (c : A -> list lib_call)
    (xs : list A) :
  (forall x, calls (ev x) = c x) ->
  calls (flat_map ev xs) = flat_map c xs.
Proof.
  intros H. induction xs as [| x xs IH]; [reflexivity |].
  change (flat_map ev (x :: xs)) with (ev x ++ flat_map ev xs).
  now rewrite calls_app, H, IH.
Qed.

Lemma console_length_events {A} (ev : A -> list event) (xs : list A) (k : nat) :
  (forall x, List.length (console (ev x)) = k) ->
  List.length (console (flat_map ev xs)) = k * List.length xs.
Proof.
  intros H. induction xs as [| x xs IH]; [cbn; lia |].
  change (flat_map ev (x :: xs)) with (ev x ++ flat_map ev xs).
  rewrite console_app, length_app, H, IH. cbn [List.length]. lia.
Qed.

(** X5: [demonstrate_key_features] raises nothing and skips nothing,
    whatever the library does.  It calls [transpile] once for each of the
    three targets, then [parse_one] once for each of the three
    unsupported cases and each of the four Vertica functions, in that
    order, and prints 18 lines. *)
Theorem demonstrate_key_features_attempts_everything :
  forall (lib : Library) (w : world),
  exists w1,
    demonstrate_key_features lib w = (Ret tt, w1)
    /\ calls (trace w1)
       = calls (trace w)
         ++ map (fun target => CallTranspile vertica_sql "vertica" target) targets
         ++ map (fun uc => CallParseOne (snd uc)) unsupported_cases
         ++ map CallParseOne vertica_functions
    /\ List.length (console (trace w1)) = List.length (console (trace w)) + 18.
Proof.
  intros lib w. rewrite demonstrate_key_features_eq.
  eexists. split; [reflexivity |]. unfold logged; cbn [trace].
  unfold feature_events. split.
  - rewrite !calls_app.
    rewrite (calls_single_events (transpile_events lib)
               (fun t => [CallTranspile vertica_sql "vertica" t])) by reflexivity.
    rewrite (calls_single_events (reject_events lib)
               (fun uc => [CallParseOne (snd uc)])) by reflexivity.
    rewrite (calls_single_events (function_events lib)
               (fun sql => [CallParseOne sql])) by reflexivity.
    rewrite !flat_map_single. cbn [calls flat_map app]. now rewrite app_nil_r.
  - rewrite !console_app, !length_app.
    rewrite (console_length_events (transpile_events lib) targets 1) by reflexivity.
    rewrite (console_length_events (reject_events lib) unsupported_cases 1)
      by reflexivity.
    rewrite (console_length_events (function_events lib) vertica_functions 1)
      by reflexivity.
    cbn. lia.
Qed.

(** X6: when [transpile] returns an empty list for a target, indexing it
    raises [IndexError], which the loop of [demonstrate_key_features]
    reports like an exception of the library: the line for that target
    is the "Error - list index out of range" one. *)
Theorem empty_transpile_result_is_reported :
  forall (lib : Library) (target : string) (w : world),
    In target targets ->
    transpile lib vertica_sql "vertica" target = inr [] ->
    exists w1,
      demonstrate_key_features lib w = (Ret tt, w1)
      /\ In (Printed [Str "   "; Str (upper target); Str ": Error - ";
                      Str "list index out of range"]) (trace w1).
Proof.
  intros lib target w Hin Hempty. rewrite demonstrate_key_features_eq.
  eexists. split; [reflexivity |]. unfold logged; cbn [trace].
  apply in_trace_app. unfold feature_events.
  apply in_trace_app. apply in_or_app. left.
  apply in_flat_map. exists target. split; [exact Hin |].
  unfold transpile_events, transpile_line. rewrite Hempty. cbn. tauto.
Qed.

Lemma empty_transpile_result_is_reported_witness :
  exists w1,
    demonstrate_key_features Sample.empty_library boot = (Ret tt, w1)
    /\ In (Printed [Str "   "; Str (upper "mysql"); Str ": Error - ";
                    Str "list index out of range"]) (trace w1).
Proof.
  refine (empty_transpile_result_is_reported Sample.empty_library "mysql" boot
            _ eq_refl).
  cbn. tauto.
Defined.

(** X7: [quick_dialect_validation] calls [parse_one] once for every test
    case, in order, and [ast.sql] only for a case that parsed, right
    after its parse; a failed parse is followed by the next case's
    parse. *)
Theorem validation_generates_only_what_parsed :
  forall (lib : Library) (w : world),
  exists w1,
    quick_dialect_validation lib w = (Ret tt, w1)
    /\ calls (trace w1)
       = calls (trace w)
         ++ flat_map (fun tc =>
                        CallParseOne (snd tc)
                          :: match parse_one lib (snd tc) with
                             | inl _ => []
                             | inr _ => [CallSql]
                             end) test_cases.
Proof.
  intros lib w. rewrite quick_dialect_validation_eq.
  eexists. split; [reflexivity |]. unfold logged; cbn [trace].
  unfold validation_events. rewrite !calls_app.
  rewrite (calls_single_events (case_events lib)
             (fun tc => CallParseOne (snd tc)
                          :: match parse_one lib (snd tc) with
                             | inl _ => []
                             | inr _ => [CallSql]
                             end)).
  - cbn [calls flat_map app]. now rewrite app_nil_r.
  - intros tc. unfold case_events.
    destruct (parse_one lib (snd tc)); reflexivity.
Qed.

(* ================================================================= *)
(** ** Further properties of [test_simple.py] and [verify.py] *)

Lemma bind_ret_inv {A B} (m : M A) (k : A -> M B) (w w2 : world) (b : B) :
  bind m k w = (Ret b, w2) ->
  exists a w1, m w = (Ret a, w1) /\ k a w1 = (Ret b, w2).
Proof.
  unfold bind. destruct (m w) as [[a | r] w1]; [eauto | discriminate].
Qed.

Lemma call_ret_inv {A} (c : lib_call) (r : Exception + A) (w w1 : world) (a : A) :
  call c r w = (Ret a, w1) -> r = inr a.
Proof.
  unfold call, bind, emit, ret, raise. destruct r; [discriminate |].
  now intros [= ->].
Qed.

Lemma import_ret_inv (module symbol : string) (r : option Exception)
    (w w1 : world) (u : unit) :
  import module symbol r w = (Ret u, w1) -> r = None.
Proof.
  unfold import. intros H. apply call_ret_inv in H. now destruct r.
Qed.

Lemma assert_ret_inv (b : bool) (w w1 : world) (u : unit) :
  assert b w = (Ret u, w1) -> b = true.
Proof. unfold assert. now destruct b. Qed.

Lemma first_item_ret_inv {A} (xs : list A) (w w1 : world) (a : A) :
  first_item xs w = (Ret a, w1) -> exists rest, xs = a :: rest.
Proof.
  unfold first_item, ret, raise. destruct xs; [discriminate |].
  intros [= -> _]. eauto.
Qed.

Lemma parse_and_generate_inv (lib : Library) (sql generated : string)
    (w w1 : world) :
  parse_and_generate lib sql w = (Ret generated, w1) ->
  exists tree rest,
    Vertica_parse lib sql = inr (tree :: rest)
    /\ Vertica_generate lib tree = inr generated.
Proof.
  unfold parse_and_generate. intros H.
  apply bind_ret_inv in H as [parsed [w2 [Hparse H]]].
  apply bind_ret_inv in H as [tree [w3 [Hfirst Hgen]]].
  apply call_ret_inv in Hparse. apply call_ret_inv in Hgen.
  apply first_item_ret_inv in Hfirst as [rest ->]. eauto.
Qed.

Lemma parse_and_generate_ok (lib : Library) (sql generated : string)
    (tree : ast lib) (rest : list (ast lib)) (w : world) :
  Vertica_parse lib sql = inr (tree :: rest) ->
  Vertica_generate lib tree = inr generated ->
  parse_and_generate lib sql w
    = (Ret generated, logged w [Called (CallParse sql); Called CallGenerate]).
Proof.
  intros Hparse Hgen. unfold parse_and_generate. rewrite Hparse.
  erewrite bind_ret_eq by apply call_ok_eq.
  erewrite bind_ret_eq by reflexivity.
  rewrite Hgen, call_ok_eq. now rewrite logged_logged.
Qed.

Lemma assert_ok (w : world) : assert true w = (Ret tt, w).
Proof. reflexivity. Qed.

Lemma regenerates_step (lib : Library) (sql : string) (accept : string -> bool)
    (k : unit -> M bool) (w : world) :
  regenerates lib sql accept ->
  bind (parse_and_generate lib sql)
       (fun generated => bind (assert (accept generated)) k) w
  = k tt (logged w [Called (CallParse sql); Called CallGenerate]).
Proof.
  intros [tree [rest [generated [Hparse [Hgen Hacc]]]]].
  erewrite bind_ret_eq by (eapply parse_and_generate_ok; eassumption).
  rewrite Hacc. now erewrite bind_ret_eq by apply assert_ok.
Qed.

Lemma regenerates_inv (lib : Library) (sql : string) (accept : string -> bool)
    (k : unit -> M bool) (w w2 : world) (b : bool) :
  bind (parse_and_generate lib sql)
       (fun generated => bind (assert (accept generated)) k) w = (Ret b, w2) ->
  regenerates lib sql accept /\ exists w1, k tt w1 = (Ret b, w2).
Proof.
  intros H.
  apply bind_ret_inv in H as [generated [w3 [Hpg H]]].
  apply bind_ret_inv in H as [[] [w4 [Hassert H]]].
  apply parse_and_generate_inv in Hpg as [tree [rest [Hparse Hgen]]].
  apply assert_ret_inv in Hassert.
  split; [| eauto]. now exists tree, rest, generated.
Qed.

(** X8: what a pass of the smoke test means.
    [test_basic_functionality] returns [True] exactly when both imports
    succeed, the library regenerates "SELECT * FROM table1" unchanged,
    the regenerated texts of the four other statements contain
    "DATEADD", "ILIKE", "ARRAY" and "TIMESTAMPTZ", and the transpilation
    of "SELECT NOW()" from postgres to vertica is not empty. *)
Theorem smoke_test_passes_iff :
  forall (lib : Library) (w : world),
    (exists w1, test_basic_functionality lib w = (Ret true, w1))
    <-> smoke_conditions lib.
Proof.
  intros lib w. rewrite test_basic_functionality_eq. split.
  - intros [w1 H].
    pose proof (test_basic_body_yields lib w) as Hy.
    destruct (test_basic_body lib w) as [[b | [c | e]] w2] eqn:Hbody;
      try discriminate; [| contradiction].
    clear H Hy. unfold test_basic_body in Hbody.
    apply bind_ret_inv in Hbody as [[] [w3 [Himp1 Hbody]]].
    apply bind_ret_inv in Hbody as [[] [w4 [Himp2 Hbody]]].
    apply import_ret_inv in Himp1. apply import_ret_inv in Himp2.
    apply bind_ret_inv in Hbody as [[] [w5 [_ Hbody]]].
    (* basic parsing and generation *)
    apply bind_ret_inv in Hbody as [parsed [w6 [Hparse Hbody]]].
    apply call_ret_inv in Hparse.
    apply bind_ret_inv in Hbody as [[] [w7 [_ Hbody]]].
    apply bind_ret_inv in Hbody as [[] [w8 [_ Hbody]]].
    apply bind_ret_inv in Hbody as [tree [w9 [Hfirst Hbody]]].
    apply first_item_ret_inv in Hfirst as [rest ->].
    apply bind_ret_inv in Hbody as [generated [w10 [Hgen Hbody]]].
    apply call_ret_inv in Hgen.
    apply bind_ret_inv in Hbody as [[] [w11 [Heq Hbody]]].
    apply assert_ret_inv in Heq.
    apply bind_ret_inv in Hbody as [[] [w12 [_ Hbody]]].
    (* the four containment checks *)
    apply regenerates_inv in Hbody as [Hdate [w13 Hbody]].
    apply bind_ret_inv in Hbody as [[] [w14 [_ Hbody]]].
    apply regenerates_inv in Hbody as [Hlike [w15 Hbody]].
    apply bind_ret_inv in Hbody as [[] [w16 [_ Hbody]]].
    apply regenerates_inv in Hbody as [Harray [w17 Hbody]].
    apply bind_ret_inv in Hbody as [[] [w18 [_ Hbody]]].
    apply regenerates_inv in Hbody as [Htypes [w19 Hbody]].
    apply bind_ret_inv in Hbody as [[] [w20 [_ Hbody]]].
    (* transpilation *)
    apply bind_ret_inv in Hbody as [result [w21 [Htrans Hbody]]].
    apply call_ret_inv in Htrans.
    apply bind_ret_inv in Hbody as [[] [w22 [Hlen _]]].
    apply assert_ret_inv in Hlen.
    unfold smoke_conditions. repeat split; try assumption.
    + now exists tree, rest, generated.
    + destruct result as [| first others]; [discriminate |].
      now exists first, others.
  - intros [Himp1 [Himp2 [Hbasic [Hdate [Hlike [Harray [Htypes Htrans]]]]]]].
    destruct Hbasic as [tree [rest [generated [Hparse [Hgen Heq]]]]].
    destruct Htrans as [first [others Htrans]].
    assert (Hbody : exists w2, test_basic_body lib w = (Ret true, w2)).
    { unfold test_basic_body, import. rewrite Himp1, Himp2, Hparse, Htrans.
      do 2 (erewrite bind_ret_eq by apply call_ok_eq).
      run_print.
      erewrite bind_ret_eq by apply call_ok_eq.
      erewrite bind_ret_eq by reflexivity.
      run_print.
      erewrite bind_ret_eq by reflexivity.
      rewrite Hgen. erewrite bind_ret_eq by apply call_ok_eq.
      rewrite Heq. erewrite bind_ret_eq by apply assert_ok.
      run_print.
      erewrite regenerates_step by exact Hdate.
      run_print.
      erewrite regenerates_step by exact Hlike.
      run_print.
      erewrite regenerates_step by exact Harray.
      run_print.
      erewrite regenerates_step by exact Htypes.
      run_print.
      erewrite bind_ret_eq by apply call_ok_eq.
      erewrite bind_ret_eq by reflexivity.
      do 2 run_print. unfold ret. eauto. }
    destruct Hbody as [w2 ->]. eauto.
Qed.

Lemma smoke_test_passes_iff_witness :
  (exists w1,
      test_basic_functionality Sample.accepting_library boot = (Ret true, w1))
  /\ ~ (exists w1,
          test_basic_functionality Sample.parsing_only_library boot = (Ret true, w1)).
Proof.
  split.
  - apply (proj2 (smoke_test_passes_iff Sample.accepting_library boot)).
    unfold smoke_conditions, regenerates; cbn.
    repeat split; repeat eexists; reflexivity.
  - intros H.
    apply (proj1 (smoke_test_passes_iff Sample.parsing_only_library boot)) in H.
    destruct H as [_ [_ [[tree [rest [generated [_ [Hgen _]]]]] _]]].
    discriminate Hgen.
Defined.

(** X9: when [Vertica.parse] finds no statement in
    "SELECT * FROM table1", the first assertion of
    [test_basic_functionality] fails before anything is generated: the
    function returns [False], the diagnostic carries the empty text of
    the [AssertionError], and [Vertica().generate] is never called. *)
Theorem empty_parse_fails_first_assertion :
  forall (lib : Library) (w : world),
    import_vertica lib = None ->
    import_sqlglot lib = None ->
    Vertica_parse lib "SELECT * FROM table1" = inr [] ->
    test_basic_functionality lib w
    = (Ret false,
       logged w [Called (CallImport "sqlglot_vertica.vertica" "Vertica");
                 Called (CallImport "sqlglot" "transpile");
                 Printed [Str "✓ Successfully imported Vertica dialect"];
                 Called (CallParse "SELECT * FROM table1");
                 Printed [Str "❌ Test failed with error: "; Str ""];
                 TracebackPrinted (mkException AssertionError "")]).
Proof.
  intros lib w H1 H2 Hparse. rewrite test_basic_functionality_eq.
  unfold test_basic_body, import. rewrite H1, H2, Hparse.
  do 2 (erewrite bind_ret_eq by apply call_ok_eq).
  run_print.
  erewrite bind_ret_eq by apply call_ok_eq.
  erewrite bind_raise_eq by reflexivity.
  rewrite !logged_logged. reflexivity.
Qed.

Lemma empty_parse_fails_first_assertion_witness :
  test_basic_functionality Sample.empty_library boot
  = (Ret false,
     logged boot [Called (CallImport "sqlglot_vertica.vertica" "Vertica");
                  Called (CallImport "sqlglot" "transpile");
                  Printed [Str "✓ Successfully imported Vertica dialect"];
                  Called (CallParse "SELECT * FROM table1");
                  Printed [Str "❌ Test failed with error: "; Str ""];
                  TracebackPrinted (mkException AssertionError "")]).
Proof.
  exact (empty_parse_fails_first_assertion Sample.empty_library boot
           eq_refl eq_refl eq_refl).
Defined.

(** X10: what [verify.py] prints.  It reports each step that succeeded
    and then the first failure, and nothing after it: an import error
    alone; or the import line and the parse error; or, when the parse
    finds no statement, the import line, the "Basic parsing works" line
    and the [IndexError] of indexing the empty result; or both lines and
    the generation error; or the three SUCCESS lines, the last one with
    the generated SQL.  In every case the module runs to its end. *)
Theorem verify_reports_first_failure :
  forall (lib : Library) (w : world),
  exists w1,
    verify_py lib w = (Ret tt, w1)
    /\ console (trace w1)
       = console (trace w)
         ++ match import_vertica lib with
            | Some e => [[Str "ERROR: "; Str (exc_str e)]]
            | None =>
                [Str "SUCCESS: Vertica dialect imported successfully"]
                  :: match Vertica_parse lib "SELECT 1" with
                     | inl e => [[Str "ERROR: "; Str (exc_str e)]]
                     | inr [] =>
                         [[Str "SUCCESS: Basic parsing works"];
                          [Str "ERROR: "; Str "list index out of range"]]
                     | inr (tree :: _) =>
                         [Str "SUCCESS: Basic parsing works"]
                           :: match Vertica_generate lib tree with
                              | inl e => [[Str "ERROR: "; Str (exc_str e)]]
                              | inr generated =>
                                  [[Str "SUCCESS: Generated SQL: "; Str generated]]
                              end
                     end
            end.
Proof.
  intros lib w.
  unfold verify_py, verify_body, try_except, import, call, first_item, print,
    traceback_print_exc, bind, emit, ret, raise, except_Exception; cbn.
  destruct (import_vertica lib) as [e0 |]; cbn.
  { eexists; split; [reflexivity |]. cbn [trace].
    rewrite !console_app. cbn. now rewrite <- ?app_assoc. }
  destruct (Vertica_parse lib "SELECT 1") as [e1 | [| tree rest]]; cbn.
  { eexists; split; [reflexivity |]. cbn [trace].
    rewrite !console_app. cbn. now rewrite <- ?app_assoc. }
  { eexists; split; [reflexivity |]. cbn [trace].
    rewrite !console_app. cbn. now rewrite <- ?app_assoc. }
  destruct (Vertica_generate lib tree) as [e2 | generated]; cbn.
  { eexists; split; [reflexivity |]. cbn [trace].
    rewrite !console_app. cbn. now rewrite <- ?app_assoc. }
  eexists; split; [reflexivity |]. cbn [trace].
  rewrite !console_app. cbn. now rewrite <- ?app_assoc.
Qed.

(* ================================================================= *)
(** ** Further properties of the summary of [main] *)

Lemma prefix_slice_length (n : nat) (s : string) :
  String.length (prefix_slice n s) = Nat.min n (String.length s).
Proof.
  unfold prefix_slice. revert s.
  induction n as [| n IH]; intros [| c s]; cbn; try reflexivity.
  now rewrite IH.
Qed.

Lemma prefix_slice_short (n : nat) (s : string) :
  String.length s <= n -> prefix_slice n s = s.
Proof.
  unfold prefix_slice. revert s.
  induction n as [| n IH]; intros [| c s] Hlen; cbn in *; try reflexivity.
  - lia.
  - f_equal. apply IH. lia.
Qed.

(** X11: what [main] shows of a failed child.  For a child that
    completes with a non-zero return code, the "Error:" line carries the
    first 200 characters of its stderr: never more than 200 characters,
    and the whole stderr when that is no longer than 200. *)
Theorem failed_child_error_line :
  forall (h : Host) (script : string) (results : list result_row) (w : world)
         (p : CompletedProcess),
    subprocess_run h [sys_executable h; script] (script_dir h) 30 = inr p ->
    returncode p <> 0%Z ->
    exists shown_text w1 rows,
      run_one h script results w = (Ret rows, w1)
      /\ In (Printed [Str "  Error: "; Str shown_text; Str "..."]) (trace w1)
      /\ shown_text = prefix_slice 200 (stderr p)
      /\ String.length shown_text <= 200
      /\ (String.length (stderr p) <= 200 -> shown_text = stderr p).
Proof.
  intros h script results w p Hrun Hrc. rewrite run_one_eq.
  assert (Hrep : child_report (child_of h script) = (false, stderr p)).
  { unfold child_report, child_of. rewrite Hrun.
    destruct (Z.eqb_spec (returncode p) 0); [contradiction | reflexivity]. }
  do 3 eexists. split; [reflexivity |]. split; [| split; [reflexivity | split]].
  - cbn [trace]. apply in_trace_app.
    unfold script_events, script_lines, child_succeeds. rewrite Hrep.
    cbn. tauto.
  - rewrite prefix_slice_length. lia.
  - apply prefix_slice_short.
Qed.

Lemma failed_child_error_line_witness :
  exists shown_text w1 rows,
    run_one Sample.failing_host "basic_usage.py" [] boot = (Ret rows, w1)
    /\ In (Printed [Str "  Error: "; Str shown_text; Str "..."]) (trace w1)
    /\ shown_text = prefix_slice 200 "ModuleNotFoundError"
    /\ String.length shown_text <= 200
    /\ (String.length "ModuleNotFoundError" <= 200
        -> shown_text = "ModuleNotFoundError").
Proof.
  refine (failed_child_error_line Sample.failing_host "basic_usage.py" [] boot
            (mkCompleted 1 "" "ModuleNotFoundError") eq_refl _).
  discriminate.
Defined.

(** X12: the closing lines of [main] agree with the status it returns.
    The console ends with the two "ALL EXAMPLES COMPLETED SUCCESSFULLY"
    lines when it returns 0 and with the "Some examples failed" line
    when it returns 1, and it returns nothing else. *)
Theorem closing_lines_match_status :
  forall (h : Host) (w : world),
  exists status w1 before,
    run_scripts h w = (Ret status, w1)
    /\ ((status = 0%Z
         /\ console (trace w1)
            = before
              ++ [[Str "🎉 ALL EXAMPLES COMPLETED SUCCESSFULLY!"];
                  [Str "The Vertica SQLGlot dialect is working perfectly!"]])
        \/ (status = 1%Z
            /\ console (trace w1)
               = before
                 ++ [[Str "⚠️  Some examples failed. Check the output above for details."]])).
Proof.
  intros h w. rewrite run_scripts_eq.
  set (rows := rows_from h example_scripts (S (ticks w))).
  pose proof (forallb_rows h example_scripts (S (ticks w))) as Hall.
  fold rows in Hall.
  exists (final_status h),
    (mkWorld (trace w ++ scripts_events h (ticks w)) (10 + ticks w)).
  cbn [trace]. unfold scripts_events, summary_events. fold rows.
  unfold final_status. rewrite Hall.
  rewrite !app_assoc.
  destruct (forallb (child_succeeds h) example_scripts);
    rewrite console_app; eexists; (split; [reflexivity |]);
    [left | right]; (split; [reflexivity |]); reflexivity.
Qed.

(** X13: the table of individual results.  [main] prints one row per
    example script, in the order of [example_scripts] and between the
    "Individual script results:" line and an empty line; a row reads
    PASSED exactly when [run_example_script] reported success for that
    script. *)
Theorem summary_table_lists_every_script :
  forall (h : Host) (w : world),
  exists w1 rows before after,
    run_scripts h w = (Ret (final_status h), w1)
    /\ console (trace w1)
       = before ++ [[Str "Individual script results:"]]
         ++ map row_line rows ++ [[]] ++ after
    /\ map (fun r => (fst (fst r), row_success r)) rows
       = map (fun script => (script, child_succeeds h script)) example_scripts
    /\ (forall script success exec_time,
           row_line (script, success, exec_time)
           = [Str "  "; Padded 25 script; Str " ";
              Padded 10 (if success then "✅ PASSED" else "❌ FAILED");
              Str " ("; Fixed 2 exec_time; Str "s)"]).
Proof.
  intros h w. rewrite run_scripts_eq.
  set (rows := rows_from h example_scripts (S (ticks w))).
  set (total := PrimFloat.sub (clock h (9 + ticks w)) (clock h (ticks w))).
  exists (mkWorld (trace w ++ scripts_events h (ticks w)) (10 + ticks w)), rows.
  exists (console (trace w
                   ++ [Printed [Str "📋 RUNNING ALL EXAMPLE SCRIPTS"];
                       Printed [Str (str_mul "=" 60)];
                       ClockRead (clock h (ticks w))]
                   ++ script_events_from h example_scripts (S (ticks w))
                   ++ [ClockRead (clock h (9 + ticks w))])
          ++ [[Str "📊 EXECUTION SUMMARY"];
              [Str (str_mul "=" 60)];
              [Str "Scripts executed: "; Int (len rows)];
              [Str "Successful: "; Int (count_successful rows)];
              [Str "Failed: "; Int (len rows - count_successful rows)];
              [Str "Total execution time: "; Fixed 2 total; Str "s"];
              []]).
  exists (console
            (if forallb row_success rows
             then [Printed [Str "🎉 ALL EXAMPLES COMPLETED SUCCESSFULLY!"];
                   Printed [Str "The Vertica SQLGlot dialect is working perfectly!"]]
             else [Printed [Str "⚠️  Some examples failed. Check the output above for details."]])).
  split; [reflexivity |]. split; [| split].
  - cbn [trace]. unfold scripts_events, summary_events. fold rows. fold total.
    rewrite !console_app. rewrite <- (map_map row_line Printed).
    rewrite console_map_printed.
    rewrite <- !app_assoc. reflexivity.
  - unfold rows. generalize (S (ticks w)).
    induction example_scripts as [| script scripts IH]; intros n; [reflexivity |].
    cbn [rows_from map]. now rewrite IH.
  - reflexivity.
Qed.

(* ================================================================= *)
(** ** Further properties of [main] as a whole *)






(** X15: the test query is parsed once more than it is timed.  When it
    parses, [show_performance_summary] calls [parse_one] on it 101
    times, the 100 timed calls and one more for the node counts, and
    then asks [find_all] for tables, functions and windows in that
    order; when all three answer, it returns and prints their lengths
    as the three counts. *)
Theorem performance_summary_parses_101_times :
  forall (h : Host) (lib : Library) (w : world) (tree : ast lib)
         (tables functions windows : list (ast lib)),
    parse_one lib test_sql = inr tree ->
    find_all lib tree "Table" = inr tables ->
    find_all lib tree "Func" = inr functions ->
    find_all lib tree "Window" = inr windows ->
    exists w1,
      show_performance_summary h lib w = (Ret tt, w1)
      /\ calls (trace w1)
         = calls (trace w)
           ++ repeat (CallParseOne test_sql) 101
           ++ [CallFindAll "Table"; CallFindAll "Func"; CallFindAll "Window"]
      /\ In (Printed [Str "  Tables: "; Int (len tables)]) (trace w1)
      /\ In (Printed [Str "  Functions: "; Int (len functions)]) (trace w1)
      /\ In (Printed [Str "  Window functions: "; Int (len windows)]) (trace w1).
Proof.
  intros h lib w tree tables functions windows Hparse Ht Hf Hw.
  rewrite show_performance_summary_eq.
  unfold performance_run, complexity_run. rewrite Hparse, Ht, Hf, Hw.
  cbn [fst snd]. eexists. split; [reflexivity |]. cbn [trace].
  split; [| repeat split; do 3 apply in_trace_app; cbn; tauto].
  rewrite !calls_app. unfold benchmark_events.
  assert (Hrep : forall n, calls (repeat (Called (CallParseOne test_sql)) n)
                           = repeat (CallParseOne test_sql) n)
    by (induction n as [| n IH]; cbn; [reflexivity | now rewrite <- IH]).
  change (calls (ClockRead (clock h (ticks w))
                   :: repeat (Called (CallParseOne test_sql)) 100
                   ++ [ClockRead (clock h (S (ticks w)))]))
    with (calls (repeat (Called (CallParseOne test_sql)) 100
                   ++ [ClockRead (clock h (S (ticks w)))])).
  rewrite calls_app, Hrep. cbn [calls flat_map app].
  rewrite app_nil_r.
  change 101 with (100 + 1). rewrite repeat_app.
  now rewrite <- !app_assoc.
Qed.

Lemma performance_summary_parses_101_times_witness :
  exists w1,
    show_performance_summary (Sample.completing_host 0 "" "")
                             Sample.accepting_library boot = (Ret tt, w1)
    /\ calls (trace w1)
       = calls (trace boot)
         ++ repeat (CallParseOne test_sql) 101
         ++ [CallFindAll "Table"; CallFindAll "Func"; CallFindAll "Window"]
    /\ In (Printed [Str "  Tables: "; Int (len (@nil string))]) (trace w1)
    /\ In (Printed [Str "  Functions: "; Int (len (@nil string))]) (trace w1)
    /\ In (Printed [Str "  Window functions: "; Int (len (@nil string))]) (trace w1).
Proof.
  exact (performance_summary_parses_101_times (Sample.completing_host 0 "" "")
           Sample.accepting_library boot test_sql [] [] []
           eq_refl eq_refl eq_refl eq_refl).
Defined.

Lemma readings_none {A} (ev : A -> list event) (xs : list A) :
  (forall x, readings (ev x) = []) -> readings (flat_map ev xs) = [].
Proof.
  intros H. induction xs as [| x xs IH]; [reflexivity |].
  change (flat_map ev (x :: xs)) with (ev x ++ flat_map ev xs).
  now rewrite readings_app, H, IH.
Qed.

Lemma readings_map_printed (ls : list line) : readings (map Printed ls) = [].
Proof. induction ls as [| l ls IH]; [reflexivity | exact IH]. Qed.

Lemma readings_script_events_from (h : Host) (scripts : list string) :
  forall n, readings (script_events_from h scripts n)
            = map (clock h) (seq n (2 * List.length scripts)).
Proof.
  induction scripts as [| script scripts IH]; intros n; [reflexivity |].
  cbn [script_events_from List.length]. rewrite readings_app, IH.
  unfold script_events. rewrite readings_app, readings_map_printed.
  replace (2 * S (List.length scripts)) with (S (S (2 * List.length scripts)))
    by lia.
  cbn. reflexivity.
Qed.

Lemma readings_summary_events (results : list result_row) (t : float) :
  readings (summary_events results t) = [].
Proof.
  unfold summary_events. rewrite !readings_app.
  rewrite <- (map_map row_line Printed), readings_map_printed.
  now destruct (forallb row_success results).
Qed.

(** X16: how the script-running part of [main] uses the clock.  It
    reads it exactly ten times: once before the loop, twice for each of
    the four scripts, once after the loop; the printed total execution
    time is the last of these readings minus the first. *)
Theorem run_scripts_reads_clock_ten_times :
  forall (h : Host) (w : world),
  exists w1,
    run_scripts h w = (Ret (final_status h), w1)
    /\ readings (trace w1)
       = readings (trace w) ++ map (clock h) (seq (ticks w) 10)
    /\ ticks w1 = 10 + ticks w
    /\ In (Printed [Str "Total execution time: ";
                    Fixed 2 (PrimFloat.sub (clock h (9 + ticks w)) (clock h (ticks w)));
                    Str "s"])
          (trace w1).
Proof.
  intros h w. rewrite run_scripts_eq. eexists. split; [reflexivity |].
  cbn [trace ticks]. split; [| split; [reflexivity |]].
  - unfold scripts_events.
    rewrite !readings_app, readings_script_events_from, readings_summary_events.
    cbn [readings flat_map app List.length example_scripts Nat.mul Nat.add].
    f_equal.
  - do 4 apply in_trace_app. unfold summary_events. apply in_or_app. left.
    cbn. tauto.
Qed.

(** X17: the last line of [test_simple.py] agrees with its exit status:
    "Implementation is working correctly!" before exiting with 0 when
    [test_basic_functionality] returned [True], "Implementation has
    issues that need to be fixed." before exiting with 1 when it
    returned [False]. *)
Theorem test_simple_last_line_matches_status :
  forall (lib : Library) (w : world),
  exists b w0 w1,
    test_basic_functionality lib (test_simple_start w) = (Ret b, w0)
    /\ test_simple_py lib w = (Raise (SystemExit (if b then 0 else 1)), w1)
    /\ trace w1
       = trace w0
         ++ [Printed [Str nl;
                      Str (if b then "✅ Implementation is working correctly!"
                           else "❌ Implementation has issues that need to be fixed.")]].
Proof.
  intros lib w.
  destruct (test_basic_functionality_returns lib (test_simple_start w))
    as [b [w0 E]].
  exists b, w0. unfold test_simple_py.
  do 2 run_print. rewrite logged_logged.
  erewrite bind_ret_eq by exact E.
  destruct b; run_print; eexists; (split; [exact E |]);
    (split; [reflexivity |]); reflexivity.
Qed.

Lemma tally_map {A B} (f : B -> bool) (g : A -> B) (xs : list A) :
  tally f (map g xs) = tally (fun x => f (g x)) xs.
Proof.
  induction xs as [| x xs IH]; [reflexivity |].
  cbn [map]. now rewrite !tally_cons, IH.
Qed.

Lemma tally_ext {A} (f g : A -> bool) (xs : list A) :
  (forall x, f x = g x) -> tally f xs = tally g xs.
Proof.
  intros H. induction xs as [| x xs IH]; [reflexivity |].
  now rewrite !tally_cons, IH, H.
Qed.

Lemma is_passed_verdict (lib : Library) (tc : string * string) :
  is_passed_line (verdict lib tc) = passes lib tc.
Proof.
  unfold verdict, passes. now destruct (case_failure lib (snd tc)).
Qed.

(** X18: the results line of [quick_dialect_validation] agrees with the
    verdict lines above it: the printed [passed] is the number of PASSED
    lines and the printed [failed] the number of the other verdict
    lines. *)
Theorem validation_results_match_verdicts :
  forall (lib : Library) (w : world),
  exists w1 passed failed,
    quick_dialect_validation lib w = (Ret tt, w1)
    /\ console (trace w1)
       = console (trace w)
         ++ [[Str "🔍 QUICK DIALECT VALIDATION"]; [Str (str_mul "=" 60)]]
         ++ map (verdict lib) test_cases
         ++ [[Str nl; Str "Validation Results: "; Int passed; Str " passed, ";
              Int failed; Str " failed"];
             []]
    /\ passed = tally is_passed_line (map (verdict lib) test_cases)
    /\ failed = tally (fun l => negb (is_passed_line l))
                      (map (verdict lib) test_cases).
Proof.
  intros lib w. rewrite quick_dialect_validation_eq.
  do 3 eexists. split; [reflexivity |].
  unfold logged; cbn [trace]. unfold validation_events.
  rewrite !console_app, console_cases. split; [reflexivity |].
  rewrite !tally_map. split; apply tally_ext; intros tc;
    now rewrite is_passed_verdict.
Qed.
